(** * Incremental build engine of the static site generator

    A shallow embedding of [autobuild.py] (manifest store, staleness
    classifier, change aggregator, orphan reconciler, build driver), of the
    parts of [generator.py] that touch the output tree and of the metadata
    normalisation of [parser.py], followed by the properties of the build
    that hold of that code.

    Modelling conventions.
    - A Python [str] is a [string] (a sequence of bytes); [str.lower] is the
      ASCII lowering, bytes outside [A-Z] are kept.
    - A Python [dict] is an association list in insertion order with unique
      keys ([json.dump] writes a dict in that order, so two equal lists are
      written as the same bytes).
    - Values read back from the JSON manifest are [pyval]s.
    - Paths are POSIX paths. *)

From stdpp Require Import base option list strings pretty gmap.
From Stdlib Require Import Ascii String NArith Permutation Sorted.

#[local] Set Warnings "-clear-no-such-hyp".

(** ** Strings and paths *)

Module Str.

Definition lower_ascii (c : ascii) : ascii :=
  let n := N_of_ascii c in
  if ((65 <=? n) && (n <=? 90))%N then ascii_of_N (n + 32) else c.

(** [str.lower] *)
Fixpoint lower (s : string) : string :=
  match s with
  | EmptyString => EmptyString
  | String c s' => String (lower_ascii c) (lower s')
  end.

(** [str.startswith] *)
Definition startswith (s p : string) : bool := String.prefix p s.

(** [str.endswith] *)
Definition endswith (s p : string) : bool :=
  String.prefix (String.rev p) (String.rev s).

(** [s.lstrip(c)] for a single character [c] *)
Fixpoint lstrip (c : ascii) (s : string) : string :=
  match s with
  | String a s' => if Ascii.eqb a c then lstrip c s' else s
  | EmptyString => EmptyString
  end.

(** [s.rstrip(c)] *)
Definition rstrip (c : ascii) (s : string) : string :=
  String.rev (lstrip c (String.rev s)).

(** [s.strip(c)] *)
Definition strip (c : ascii) (s : string) : string := rstrip c (lstrip c s).

Fixpoint split_go (c : ascii) (cur : string) (s : string) : list string :=
  match s with
  | EmptyString => [String.rev cur]
  | String a s' =>
      if Ascii.eqb a c then String.rev cur :: split_go c EmptyString s'
      else split_go c (String a cur) s'
  end.

(** [s.split(c)] for a single character separator *)
Definition split (c : ascii) (s : string) : list string :=
  split_go c EmptyString s.

(** [s.replace(a, b)] for single characters *)
Fixpoint replace (a b : ascii) (s : string) : string :=
  match s with
  | EmptyString => EmptyString
  | String x s' => String (if Ascii.eqb x a then b else x) (replace a b s')
  end.

(** [s[:-n]] *)
Definition drop_last (n : nat) (s : string) : string :=
  String.substring 0 (String.length s - n) s.

(** [c not in s] *)
Fixpoint free_of (c : ascii) (s : string) : bool :=
  match s with
  | EmptyString => true
  | String a s' => negb (Ascii.eqb a c) && free_of c s'
  end.

End Str.

Module Path.

(** [posixpath.join] of two components *)
Definition join2 (path b : string) : string :=
  if Str.startswith b "/" then b
  else if String.eqb path "" || Str.endswith path "/" then path +:+ b
  else path +:+ "/" +:+ b.

(** [os.path.join(a, *p)] *)
Definition join (a : string) (p : list string) : string :=
  fold_left join2 p a.

(** [os.path.basename] *)
Definition basename (p : string) : string :=
  List.last (Str.split "/"%char p) "".

Fixpoint all_dots (s : string) : bool :=
  match s with
  | EmptyString => true
  | String a s' => Ascii.eqb a "."%char && all_dots s'
  end.

Fixpoint after_dot (s : string) : option string :=
  match s with
  | EmptyString => None
  | String a s' => if Ascii.eqb a "."%char then Some s' else after_dot s'
  end.

(** [os.path.splitext(p)[0]] for a [p] without directory part: the
    extension starts at the last dot, leading dots do not count. *)
Definition splitext_root (p : string) : string :=
  match after_dot (String.rev p) with
  | Some r => if all_dots r then p else String.rev r
  | None => p
  end.

End Path.

(** ** Python values and dictionaries *)

(** The values the manifest stores: [None]/JSON null, booleans, strings and
    lists of strings. *)
Inductive pyval :=
| PNone
| PBool (b : bool)
| PStr (s : string)
| PList (l : list string).

#[global] Instance pyval_eq_dec : EqDecision pyval.
Proof. solve_decision. Defined.

(** Python truthiness, as used by [if x:] and [x and ...] *)
Definition truthy (v : pyval) : bool :=
  match v with
  | PNone => false
  | PBool b => b
  | PStr s => negb (String.eqb s "")
  | PList l => match l with [] => false | _ => true end
  end.

(** [a != b] *)
Definition py_ne (a b : pyval) : bool := negb (bool_decide (a = b)).

Module Dict.

(** A [dict] with string keys, in insertion order. *)
Definition t (V : Type) : Type := list (string * V).

Section ops.
Context {V : Type}.

(** [d.get(k)], [None] when the key is absent *)
Fixpoint lookup (k : string) (d : t V) : option V :=
  match d with
  | [] => None
  | (k', v) :: d' => if String.eqb k k' then Some v else lookup k d'
  end.

(** [k in d] *)
Definition mem (k : string) (d : t V) : bool :=
  match lookup k d with Some _ => true | None => false end.

(** [d[k] = v]: an existing key keeps its position, a new one goes last *)
Fixpoint set (k : string) (v : V) (d : t V) : t V :=
  match d with
  | [] => [(k, v)]
  | (k', v') :: d' =>
      if String.eqb k k' then (k', v) :: d' else (k', v') :: set k v d'
  end.

(** [d.pop(k, None)] *)
Fixpoint pop (k : string) (d : t V) : t V :=
  match d with
  | [] => []
  | (k', v') :: d' => if String.eqb k k' then d' else (k', v') :: pop k d'
  end.

(** [d.keys()] *)
Definition keys (d : t V) : list string := map fst d.

End ops.

(** [d.get(k)] on a dict of Python values: absent keys give [None] *)
Definition get (k : string) (d : t pyval) : pyval :=
  match lookup k d with Some v => v | None => PNone end.

End Dict.

(** ** The output tree *)

Module FS.

Inductive node :=
| Dir
| File (content : string).

(** A path is its list of non-empty components. *)
Definition path := list string.

Definition to_path (s : string) : path :=
  filter (fun c => c <> "") (Str.split "/"%char s).

(** The tree: every existing path with what is there. *)
Definition t := list (path * node).

Definition find (p : path) (fs : t) : option node :=
  snd <$> List.find (fun e => bool_decide (fst e = p)) fs.

(** [os.path.exists] *)
Definition exists_ (s : string) (fs : t) : bool :=
  match find (to_path s) fs with Some _ => true | None => false end.

(** [os.path.isdir] *)
Definition isdir (s : string) (fs : t) : bool :=
  match find (to_path s) fs with Some Dir => true | _ => false end.

Fixpoint is_prefix (p q : path) : bool :=
  match p, q with
  | [], _ => true
  | a :: p', b :: q' => String.eqb a b && is_prefix p' q'
  | _ :: _, [] => false
  end.

(** [shutil.rmtree]: the directory and everything below it goes *)
Definition rmtree (s : string) (fs : t) : t :=
  List.filter (fun e => negb (is_prefix (to_path s) (fst e))) fs.

(** [os.remove]: removes a file; on a directory it raises and the tree
    is as before *)
Definition remove (s : string) (fs : t) : t :=
  match find (to_path s) fs with
  | Some (File _) =>
      List.filter (fun e => negb (bool_decide (fst e = to_path s))) fs
  | _ => fs
  end.

Definition mkdir (p : path) (fs : t) : t :=
  match find p fs with
  | Some _ => fs
  | None => fs ++ [(p, Dir)]
  end.

Fixpoint prefixes (acc : path) (p : path) : list path :=
  match p with
  | [] => []
  | c :: p' => (acc ++ [c]) :: prefixes (acc ++ [c]) p'
  end.

(** One component of [os.makedirs]: [acc] is the tree and whether all went
    well so far; a component that is a file makes it raise. *)
Definition makedirs_step (acc : t * bool) (p : path) : t * bool :=
  if snd acc then
    match find p (fst acc) with
    | Some (File _) => (fst acc, false)
    | _ => (mkdir p (fst acc), true)
    end
  else acc.

(** [os.makedirs(s, exist_ok=True)]: the tree after it and whether it
    succeeded. *)
Definition makedirs (s : string) (fs : t) : t * bool :=
  fold_left makedirs_step (prefixes [] (to_path s)) (fs, true).

(** [open(s, 'w').write(content)] where the parent directory exists:
    on a directory it raises and the tree is as before *)
Definition write (s : string) (content : string) (fs : t) : t :=
  match find (to_path s) fs with
  | Some Dir => fs
  | Some (File _) =>
      map (fun e => if bool_decide (fst e = to_path s)
                    then (fst e, File content) else e) fs
  | None => fs ++ [(to_path s, File content)]
  end.

End FS.

(** ** Documents, manifest and the world a build runs in *)

(** [config.py] *)
Definition BUILD_DIR : string := "_site".
Definition POSTS_DIR_NAME : string := "posts".
Definition ABOUT_PAGE : string := "about.md".
Definition MARKDOWN_DIR : string := "markdown".

Record date := { year : nat; month : nat; day : nat }.

Definition date_ltb (a b : date) : bool :=
  (year a <? year b)
  || ((year a =? year b) && ((month a <? month b)
      || ((month a =? month b) && (day a <? day b)))).

(** Order on the sort key [p['date']]. Every parsed post has a date; the
    order on a missing one is there to make the function total. *)
Definition key_ltb (a b : option date) : bool :=
  match a, b with
  | None, Some _ => true
  | Some x, Some y => date_ltb x y
  | _, None => false
  end.

Record tag := { tag_name : string; tag_slug : string }.

(** The front-matter dictionary returned by [get_metadata_and_content],
    restricted to the keys the build reads; [None] is an absent key. *)
Record metadata := {
  meta_slug : option pyval;
  meta_hidden : option pyval;
  meta_date : option date;
  meta_title : option pyval;
  meta_tags : option (list tag);
  meta_status : option pyval;
}.

(** [{}], what the parser returns for a file it cannot read *)
Definition empty_metadata : metadata :=
  {| meta_slug := None; meta_hidden := None; meta_date := None;
     meta_title := None; meta_tags := None; meta_status := None |}.

(** A post object: [{**metadata, 'content_html': .., 'link': ..}] *)
Record post := {
  post_metadata : metadata;
  post_content_html : string;
  post_link : option string;
}.

(** A manifest entry is a dict of JSON values. *)
Abbreviation entry := (Dict.t pyval).

(** The manifest dict; each of its three keys may be absent. *)
Record manifest := {
  m_posts : option (Dict.t entry);
  m_static_files : option (Dict.t pyval);
  m_templates : option (Dict.t pyval);
}.

(** [{}] *)
Definition empty_dict_manifest : manifest :=
  {| m_posts := None; m_static_files := None; m_templates := None |}.

(** [bool(manifest)]: a dict is true when it has a key *)
Definition manifest_truthy (m : manifest) : bool :=
  match m_posts m, m_static_files m, m_templates m with
  | None, None, None => false
  | _, _, _ => true
  end.

(** [d.get(key, {})] *)
Definition bucket {V} (o : option (Dict.t V)) : Dict.t V := default [] o.

(** What is at [MANIFEST_FILE]. *)
Inductive manifest_file :=
| Missing
| Malformed
| Stored (m : manifest).

(** Calls into [generator.py] made by the driver. *)
Inductive event :=
| GeneratePageHtml (content_html : string) (title : pyval) (page_id link : string)
| GeneratePostPage (p : post)
| GenerateIndexHtml (sorted_posts : list post)
| GenerateArchiveHtml (sorted_posts : list post)
| GenerateTagsListHtml (tag_map : Dict.t (list post))
| GenerateTagPage (tag_name : string) (sorted_tag_posts : list post)
| GenerateRobotsTxt
| WriteSitemap (parsed_posts : list post)
| WriteRss (parsed_posts : list post).

(** A call that writes a standalone page of a document. *)
Definition is_page_call (ev : event) : bool :=
  match ev with
  | GeneratePageHtml _ _ _ _ | GeneratePostPage _ => true
  | _ => false
  end.

(** A call that writes an aggregate output. *)
Definition is_aggregate_call (ev : event) : bool := negb (is_page_call ev).

(** The source tree and the collaborators, as the build sees them. *)
Record env := {
  (** [os.path.exists] on the source tree *)
  path_exists : string -> bool;
  (** SHA-256 hex digest of a file, [""] when it cannot be opened *)
  get_full_content_hash : string -> string;
  (** [glob.glob(os.path.join(config.MARKDOWN_DIR, '*.md'))] *)
  glob_markdown : list string;
  (** [glob.glob('*.md')] *)
  glob_cwd : list string;
  (** [os.path.relpath(md_file, os.path.dirname(__file__))] *)
  relpath : string -> string;
  (** [parser.get_metadata_and_content]: metadata and rendered body *)
  get_metadata_and_content : string -> metadata * string;
  (** the template engine: the page text, or [None] when rendering raises *)
  render : event -> option string;
  (** [repr] of a [str] *)
  repr_str : string -> string;
  (** [d.strftime('%Y-%m-%d')] *)
  strftime_ymd : date -> string;
}.

(** ** parser.py: metadata normalisation *)

Module Parser.

(** What [yaml.safe_load] gives under ['date']. *)
Inductive raw_date :=
| RawDatetime (d : date)
| RawDate (d : date)
| RawOther (v : pyval).

(** What [yaml.safe_load] gives under ['tags']: a string, a list of
    strings, or something one cannot iterate for tag names. *)
Inductive raw_tags :=
| TagsString (s : string)
| TagsList (l : list string)
| TagsOther.

(** The front-matter mapping, restricted to the keys read here and in the
    driver; [None] is an absent key. *)
Record front_matter := {
  fm_date : option raw_date;
  fm_tags : option raw_tags;
  fm_slug : option pyval;
  fm_title : option pyval;
  fm_hidden : option pyval;
  fm_status : option pyval;
}.

(** A markdown file as [get_metadata_and_content] finds it: unreadable, or
    split into front matter ([{}] when there is none or the YAML is
    malformed) and markdown text. *)
Inductive source :=
| Unreadable
| Readable (fm : front_matter) (content_markdown : string).

(** What the normalisation takes from outside. *)
Record lib := {
  (** [date.today()] *)
  today : date;
  (** [tag_to_slug] *)
  tag_to_slug : string -> string;
  (** [str.title] *)
  title : string -> string;
  (** the Markdown renderer with the image and table post-processing *)
  convert : string -> string;
}.

Definition newline : ascii := "010"%char.

(** [s.strip()] on ASCII white space *)
Fixpoint lstrip_space (s : string) : string :=
  match s with
  | String a s' => if Ascii.is_space a then lstrip_space s' else s
  | EmptyString => EmptyString
  end.

Definition strip_space (s : string) : string :=
  String.rev (lstrip_space (String.rev (lstrip_space s))).

Definition is_digit (a : ascii) : bool :=
  match Ascii.is_nat a with Some _ => true | None => false end.

(** Does [s] start with [dddd-dd-dd-]? The pattern is [d] for a digit and
    any other character for itself. *)
Fixpoint matches_pattern (pattern s : string) : bool :=
  match pattern, s with
  | EmptyString, _ => true
  | String p pattern', String a s' =>
      (if Ascii.eqb p "d"%char then is_digit a else Ascii.eqb a p)
      && matches_pattern pattern' s'
  | String _ _, EmptyString => false
  end.

Fixpoint drop (n : nat) (s : string) : string :=
  match n, s with
  | S n', String _ s' => drop n' s'
  | _, _ => s
  end.

(** The slug taken from the file name: [re.match] of an optional date
    prefix and the rest of the line, anchored at both ends; the rest (group
    2) in lower case when the match succeeds and the group is not empty,
    else the base name in lower case. The match fails on a line break inside
    the name; one at the very end is left out of the group. *)
Definition slug_of_base_name (base_name : string) : string :=
  let body :=
    if Str.endswith base_name (String newline EmptyString)
    then Str.drop_last 1 base_name else base_name in
  if negb (Str.free_of newline body) then Str.lower base_name
  else
    let group2 := if matches_pattern "dddd-dd-dd-" body then drop 11 body else body in
    if String.eqb group2 "" then Str.lower base_name else Str.lower group2.

(** [content_markdown.split('\n', 1)[0]] *)
Fixpoint first_line (s : string) : string :=
  match s with
  | EmptyString => EmptyString
  | String a s' => if Ascii.eqb a newline then EmptyString else String a (first_line s')
  end.

(** Step 1: [metadata['date']] is always set. *)
Definition normalize_date (l : lib) (raw : option raw_date) : date :=
  match raw with
  | Some (RawDatetime d) | Some (RawDate d) => d
  | Some (RawOther _) | None => today l
  end.

(** Step 2: the tag objects; [None] is the [TypeError] or [AttributeError]
    of tags that are not strings. *)
Definition normalize_tags (l : lib) (raw : option raw_tags) : option (list tag) :=
  let make names :=
    map (fun t => {| tag_name := t; tag_slug := tag_to_slug l t |})
      (List.filter (fun t => negb (String.eqb t "")) names) in
  match raw with
  | None => Some (make [])
  | Some (TagsString s) => Some (make (map strip_space (Str.split ","%char s)))
  | Some (TagsList names) => Some (make names)
  | Some TagsOther => None
  end.

(** Steps 1 to 4 on the front matter of the file [md_file_path] (step 5,
    the excerpt, sets a key the driver does not read). [None] is an
    exception that [get_metadata_and_content] does not catch. *)
Definition normalize (l : lib) (md_file_path : string) (fm : front_matter)
    (content_markdown : string) : option metadata :=
  tags ← normalize_tags l (fm_tags fm);
  let slug :=
    match fm_slug fm with
    | Some v => v
    | None =>
        PStr (slug_of_base_name (Path.splitext_root (Path.basename md_file_path)))
    end in
  title ←
    match fm_title fm with
    | Some v => Some v
    | None =>
        match slug with
        | PStr s =>
            let t := title l (Str.replace "-"%char " "%char s) in
            Some (PStr (if String.eqb t "" && negb (String.eqb content_markdown "")
                        then strip_space (first_line content_markdown) else t))
        | _ => None
        end
    end;
  Some {| meta_slug := Some slug; meta_hidden := fm_hidden fm;
          meta_date := Some (normalize_date l (fm_date fm));
          meta_title := Some title; meta_tags := Some tags;
          meta_status := fm_status fm |}.

(** [get_metadata_and_content]: metadata and rendered body. *)
Definition get_metadata_and_content (l : lib) (md_file_path : string) (src : source)
    : option (metadata * string) :=
  match src with
  | Unreadable => Some (empty_metadata, "")
  | Readable fm content_markdown =>
      m ← normalize l md_file_path fm content_markdown;
      Some (m, convert l content_markdown)
  end.

End Parser.

(** ** Built-ins *)

(** [str(v)] *)
Definition py_str (e : env) (v : pyval) : string :=
  match v with
  | PNone => "None"
  | PBool true => "True"
  | PBool false => "False"
  | PStr s => s
  | PList l => "[" +:+ String.concat ", " (map (repr_str e) l) +:+ "]"
  end.

Section sorting.
Context {A : Type} (before : A -> A -> bool).

(** [before y x]: [y] stays in front of a later element [x]. *)
Fixpoint insert_sorted (x : A) (l : list A) : list A :=
  match l with
  | [] => [x]
  | y :: r => if before y x then y :: insert_sorted x r else x :: y :: r
  end.

(** A stable sort, as [sorted] is. *)
Fixpoint sorted_by (l : list A) : list A :=
  match l with
  | [] => []
  | x :: r => insert_sorted x (sorted_by r)
  end.
End sorting.

(** [sorted(names)] *)
Definition sorted_strings : list string -> list string :=
  sorted_by (fun y x => String.ltb y x).

(** [sorted(posts, key=lambda p: p['date'], reverse=True)] *)
Definition sorted_by_date_desc : list post -> list post :=
  sorted_by (fun y x =>
    key_ltb (meta_date (post_metadata x)) (meta_date (post_metadata y))).

(** ** Manifest store *)

(** [load_manifest]: a missing file and a JSON error both give [{}]. *)
Definition load_manifest (f : manifest_file) : manifest :=
  match f with
  | Stored m => m
  | Missing | Malformed => empty_dict_manifest
  end.

(** [save_manifest], when the file can be written *)
Definition save_manifest (m : manifest) : manifest_file := Stored m.

(** ** generator.py: standalone pages

    Both generators run inside [try ... except Exception], so a failing
    [makedirs], template or [write] leaves the tree as it is at that point. *)

(** [generate_post_page] *)
Definition generate_post_page (e : env) (p : post) (fs : FS.t) : FS.t :=
  match post_link p with
  | None => fs
  | Some relative_link =>
      if String.eqb relative_link "" then fs
      else if String.eqb (Str.lower relative_link) "404.html" then fs
      else
        let clean_name :=
          if Str.endswith (Str.lower relative_link) ".html"
          then Str.drop_last 5 relative_link else relative_link in
        let clean_name := Str.strip "/"%char clean_name in
        let output_dir := Path.join BUILD_DIR [clean_name] in
        let '(fs1, ok) := FS.makedirs output_dir fs in
        if ok then
          match render e (GeneratePostPage p) with
          | Some html => FS.write (Path.join output_dir ["index.html"]) html fs1
          | None => fs1
          end
        else fs1
  end.

(** [generate_page_html] *)
Definition generate_page_html (e : env) (content_html : string) (page_title : pyval)
    (page_id canonical_path_with_html : string) (fs : FS.t) : FS.t :=
  let output_dir := Path.join BUILD_DIR [page_id] in
  let '(fs1, ok) := FS.makedirs output_dir fs in
  if ok then
    match render e (GeneratePageHtml content_html page_title page_id canonical_path_with_html) with
    | Some html => FS.write (Path.join output_dir ["index.html"]) html fs1
    | None => fs1
    end
  else fs1.

(** ** autobuild.py: the build driver *)

(** The mutable locals of [build_site]. *)
Record build_state := {
  new_manifest : manifest;
  posts_to_build : list post;
  posts_data_changed : bool;
  parsed_posts : list post;
  tag_map : Dict.t (list post);
  source_md_paths : gset string;
  out : FS.t;
  calls : list event;
}.

Definition set_new_manifest (m : manifest) (st : build_state) : build_state :=
  {| new_manifest := m; posts_to_build := posts_to_build st;
     posts_data_changed := posts_data_changed st; parsed_posts := parsed_posts st;
     tag_map := tag_map st; source_md_paths := source_md_paths st;
     out := out st; calls := calls st |}.

Definition set_posts_to_build (l : list post) (st : build_state) : build_state :=
  {| new_manifest := new_manifest st; posts_to_build := l;
     posts_data_changed := posts_data_changed st; parsed_posts := parsed_posts st;
     tag_map := tag_map st; source_md_paths := source_md_paths st;
     out := out st; calls := calls st |}.

Definition set_posts_data_changed (b : bool) (st : build_state) : build_state :=
  {| new_manifest := new_manifest st; posts_to_build := posts_to_build st;
     posts_data_changed := b; parsed_posts := parsed_posts st;
     tag_map := tag_map st; source_md_paths := source_md_paths st;
     out := out st; calls := calls st |}.

Definition set_parsed_posts (l : list post) (st : build_state) : build_state :=
  {| new_manifest := new_manifest st; posts_to_build := posts_to_build st;
     posts_data_changed := posts_data_changed st; parsed_posts := l;
     tag_map := tag_map st; source_md_paths := source_md_paths st;
     out := out st; calls := calls st |}.

Definition set_tag_map (t : Dict.t (list post)) (st : build_state) : build_state :=
  {| new_manifest := new_manifest st; posts_to_build := posts_to_build st;
     posts_data_changed := posts_data_changed st; parsed_posts := parsed_posts st;
     tag_map := t; source_md_paths := source_md_paths st;
     out := out st; calls := calls st |}.

Definition set_source_md_paths (s : gset string) (st : build_state) : build_state :=
  {| new_manifest := new_manifest st; posts_to_build := posts_to_build st;
     posts_data_changed := posts_data_changed st; parsed_posts := parsed_posts st;
     tag_map := tag_map st; source_md_paths := s;
     out := out st; calls := calls st |}.

Definition set_out (fs : FS.t) (st : build_state) : build_state :=
  {| new_manifest := new_manifest st; posts_to_build := posts_to_build st;
     posts_data_changed := posts_data_changed st; parsed_posts := parsed_posts st;
     tag_map := tag_map st; source_md_paths := source_md_paths st;
     out := fs; calls := calls st |}.

Definition set_calls (l : list event) (st : build_state) : build_state :=
  {| new_manifest := new_manifest st; posts_to_build := posts_to_build st;
     posts_data_changed := posts_data_changed st; parsed_posts := parsed_posts st;
     tag_map := tag_map st; source_md_paths := source_md_paths st;
     out := out st; calls := l |}.

(** [new_manifest.setdefault('posts', {})[k] = v] and its siblings *)
Definition set_post_entry (k : string) (v : entry) (m : manifest) : manifest :=
  {| m_posts := Some (Dict.set k v (bucket (m_posts m)));
     m_static_files := m_static_files m; m_templates := m_templates m |}.

Definition set_static_file (k : string) (v : pyval) (m : manifest) : manifest :=
  {| m_posts := m_posts m;
     m_static_files := Some (Dict.set k v (bucket (m_static_files m)));
     m_templates := m_templates m |}.

Definition set_template (k : string) (v : pyval) (m : manifest) : manifest :=
  {| m_posts := m_posts m; m_static_files := m_static_files m;
     m_templates := Some (Dict.set k v (bucket (m_templates m))) |}.

(** [new_manifest['posts'].pop(k, None)] *)
Definition pop_post_entry (k : string) (m : manifest) : manifest :=
  {| m_posts := Some (Dict.pop k (bucket (m_posts m)));
     m_static_files := m_static_files m; m_templates := m_templates m |}.

(** The manifest [build_site] starts to fill. *)
Definition initial_manifest : manifest :=
  {| m_posts := Some []; m_static_files := Some []; m_templates := Some [] |}.

(** *** Theme dependencies *)

Definition css_source : string := "assets/style.css".
Definition base_template_source : string := Path.join "templates" ["base.html"].

Definition CORE_DEPENDENCIES : list string :=
  [ "autobuild.py"; "parser.py"; "generator.py"; "config.py";
    Path.join "templates" ["post.html"];
    Path.join "templates" ["list.html"];
    Path.join "templates" ["archive.html"];
    Path.join "templates" ["tags_list.html"] ].

(** One dependency that is on disk: does its hash differ from [old]? *)
Definition dependency_changed (e : env) (source : string) (old : Dict.t pyval) : bool :=
  py_ne (PStr (get_full_content_hash e source)) (Dict.get source old).

(** The check of one core dependency (body of the loop over
    [CORE_DEPENDENCIES]); [acc] is [(theme_changed, new_manifest)]. *)
Definition check_core (e : env) (old_manifest : manifest)
    (acc : bool * manifest) (core_file : string) : bool * manifest :=
  if path_exists e core_file then
    (fst acc || dependency_changed e core_file (bucket (m_templates old_manifest)),
     set_template core_file (PStr (get_full_content_hash e core_file)) (snd acc))
  else acc.

(** Phase 2: [theme_changed] and the dependency hashes of the new manifest. *)
Definition check_theme (e : env) (old_manifest : manifest) : bool * manifest :=
  let acc := (false, initial_manifest) in
  let acc :=
    if path_exists e css_source then
      (fst acc || dependency_changed e css_source (bucket (m_static_files old_manifest)),
       set_static_file css_source (PStr (get_full_content_hash e css_source)) (snd acc))
    else acc in
  let acc :=
    if path_exists e base_template_source then
      (fst acc || dependency_changed e base_template_source (bucket (m_templates old_manifest)),
       set_template base_template_source
         (PStr (get_full_content_hash e base_template_source)) (snd acc))
    else acc in
  fold_left (check_core e old_manifest) CORE_DEPENDENCIES acc.

(** *** Staleness of one document *)

(** [old_manifest.get('posts', {}).get(relative_path, {})] *)
Definition old_item_of (old_manifest : manifest) (relative_path : string) : entry :=
  default [] (Dict.lookup relative_path (bucket (m_posts old_manifest))).

(** [(current_hash != old_hash) or ('link' not in old_item)] *)
Definition needs_full_build (current_hash : string) (old_item : entry) : bool :=
  py_ne (PStr current_hash) (Dict.get "hash" old_item)
  || negb (Dict.mem "link" old_item).

(** [needs_full_build or theme_changed] *)
Definition needs_rebuild_html (current_hash : string) (old_item : entry)
    (theme_changed : bool) : bool :=
  needs_full_build current_hash old_item || theme_changed.

(** The entry written for a normal post. *)
Definition new_manifest_data (e : env) (current_hash : string) (p : post)
    (post_link : string) : entry :=
  let m := post_metadata p in
  [ ("hash", PStr current_hash);
    ("title", default (PStr "") (meta_title m));
    ("date_str", PStr (match meta_date m with
                       | Some d => strftime_ymd e d
                       | None => ""
                       end));
    ("link", PStr post_link);
    ("tags_list", PList (sorted_strings (map tag_name (default [] (meta_tags m)))));
    ("hidden", default (PBool false) (meta_hidden m));
    ("status", default (PStr "published") (meta_status m)) ].

(** The loop over [new_manifest_data.items()] that skips ['hash'] and
    breaks at the first difference. *)
Definition metadata_changed (e : env) (new_data old_item : entry) : bool :=
  existsb
    (fun kv =>
       if String.eqb (fst kv) "hash" then false
       else negb (String.eqb (py_str e (snd kv)) (py_str e (Dict.get (fst kv) old_item))))
    new_data.

(** *** Clean-up of stale outputs *)

(** [link and link != x and link != 'hidden' and link != '404.html'] *)
Definition cleanable (link : pyval) : bool :=
  truthy link && py_ne link (PStr "hidden") && py_ne link (PStr "404.html").

(** Where the clean-up code looks for the output of [link]:
    [os.path.join(config.BUILD_DIR, *link.strip('/').split('/'))] *)
Definition cleanup_target (link : string) : string :=
  Path.join BUILD_DIR (Str.split "/"%char (Str.strip "/"%char link)).

(** Slug change of a surviving document (lines 432-447). [None] is the
    uncaught [AttributeError] of [.strip] on a link that is not a string. *)
Definition cleanup_renamed (old_link : pyval) (post_link : string) (fs : FS.t)
    : option FS.t :=
  if cleanable old_link && py_ne old_link (PStr post_link) then
    match old_link with
    | PStr l =>
        let old_html_dir := cleanup_target l in
        Some (if FS.exists_ old_html_dir fs && FS.isdir old_html_dir fs
              then FS.rmtree old_html_dir fs
              else if FS.exists_ old_html_dir fs then FS.remove old_html_dir fs
              else fs)
    | _ => None
    end
  else Some fs.

(** Output of a deleted source file (lines 469-485). *)
Definition cleanup_deleted (deleted_link : string) (fs : FS.t) : FS.t :=
  let deleted_html_dir := cleanup_target deleted_link in
  if FS.exists_ deleted_html_dir fs && FS.isdir deleted_html_dir fs
  then FS.rmtree deleted_html_dir fs
  else
    let deleted_html_file := Path.join BUILD_DIR [Str.strip "/"%char deleted_link] in
    if FS.exists_ deleted_html_file fs then FS.remove deleted_html_file fs else fs.

(** *** Phase 3: one markdown file *)

(** [tag_map[tag['name']].append(post)] for every tag of the post *)
Definition add_to_tag_map (p : post) (tm : Dict.t (list post)) : Dict.t (list post) :=
  fold_left
    (fun tm t => Dict.set (tag_name t) (default [] (Dict.lookup (tag_name t) tm) ++ [p]) tm)
    (default [] (meta_tags (post_metadata p))) tm.

(** A special page ([404] or [about]): rendered when stale. [None] is the
    uncaught [KeyError] of [special_post['title']]. *)
Definition build_special (e : env) (needs_html : bool) (m : metadata)
    (content_html page_id special_link : string) (st : build_state)
    : option build_state :=
  if needs_html then
    match meta_title m with
    | Some title =>
        Some (set_out (generate_page_html e content_html title page_id special_link (out st))
             (set_calls (calls st ++ [GeneratePageHtml content_html title page_id special_link])
                st))
    | None => None
    end
  else Some st.

(** [glob.glob(os.path.join(config.MARKDOWN_DIR, '*.md'))], or
    [glob.glob('*.md')] when that is empty *)
Definition md_files (e : env) : list string :=
  match glob_markdown e with
  | [] => glob_cwd e
  | l => l
  end.

(** [os.path.relpath(md_file, ...).replace('\\', '/')], the manifest key *)
Definition relative_path (e : env) (md_file : string) : string :=
  Str.replace "\"%char "/"%char (relpath e md_file).

(** [metadata['slug']] once the driver has filled in a missing slug with
    the file name without extension *)
Definition slug_value (e : env) (md_file : string) : pyval :=
  match meta_slug (fst (get_metadata_and_content e md_file)) with
  | Some v => v
  | None => PStr (Path.splitext_root (Path.basename md_file))
  end.

(** The metadata the driver works with. *)
Definition metadata_of (e : env) (md_file : string) : metadata :=
  let metadata0 := fst (get_metadata_and_content e md_file) in
  {| meta_slug := Some (slug_value e md_file); meta_hidden := meta_hidden metadata0;
     meta_date := meta_date metadata0; meta_title := meta_title metadata0;
     meta_tags := meta_tags metadata0; meta_status := meta_status metadata0 |}.

Definition content_html_of (e : env) (md_file : string) : string :=
  snd (get_metadata_and_content e md_file).

(** [str(metadata['slug']).lower()] *)
Definition slug_of (e : env) (md_file : string) : string :=
  Str.lower (py_str e (slug_value e md_file)).

(** [slug == '404' or file_name == '404.md'] *)
Definition is_404_page (e : env) (md_file : string) : bool :=
  String.eqb (slug_of e md_file) "404" || String.eqb (Path.basename md_file) "404.md".

(** [metadata.get('hidden') is True] *)
Definition is_hidden (e : env) (md_file : string) : bool :=
  bool_decide (meta_hidden (metadata_of e md_file) = Some (PBool true)).

(** [slug == 'about' or file_name == config.ABOUT_PAGE] *)
Definition is_about_page (e : env) (md_file : string) : bool :=
  String.eqb (slug_of e md_file) "about" || String.eqb (Path.basename md_file) ABOUT_PAGE.

(** [all(k in metadata for k in ['date', 'title'])] *)
Definition has_required_fields (m : metadata) : bool :=
  match meta_date m, meta_title m with
  | Some _, Some _ => true
  | _, _ => false
  end.

(** [os.path.join(config.POSTS_DIR_NAME, f"{slug}.html").replace('\\', '/')] *)
Definition post_link_of (e : env) (md_file : string) : string :=
  Str.replace "\"%char "/"%char
    (Path.join POSTS_DIR_NAME [slug_of e md_file +:+ ".html"]).

(** The post object of a normal document. *)
Definition post_of (e : env) (md_file : string) : post :=
  {| post_metadata := metadata_of e md_file;
     post_content_html := content_html_of e md_file;
     post_link := Some (post_link_of e md_file) |}.

(** The body of [for md_file in md_files]. *)
Definition process_md (e : env) (old_manifest : manifest) (theme_changed : bool)
    (st : build_state) (md_file : string) : option build_state :=
  let relative_path := relative_path e md_file in
  let st := set_source_md_paths ({[relative_path]} ∪ source_md_paths st) st in
  let current_hash := get_full_content_hash e md_file in
  let old_item := old_item_of old_manifest relative_path in
  let full := needs_full_build current_hash old_item in
  let needs_html := needs_rebuild_html current_hash old_item theme_changed in
  let metadata := metadata_of e md_file in
  let content_html := content_html_of e md_file in
  if is_404_page e md_file then
    st ← build_special e needs_html metadata content_html "404" "404.html" st;
    Some (set_new_manifest
            (set_post_entry relative_path
               [("hash", PStr current_hash); ("link", PStr "404.html")]
               (new_manifest st)) st)
  else if is_hidden e md_file then
    st ← (if is_about_page e md_file
          then build_special e needs_html metadata content_html "about" "about.html" st
          else Some st);
    Some (set_new_manifest
            (set_post_entry relative_path
               [("hash", PStr current_hash); ("link", PStr "hidden")]
               (new_manifest st)) st)
  else if negb (has_required_fields metadata) then Some st
  else
    let post_link := post_link_of e md_file in
    let p := post_of e md_file in
    let data := new_manifest_data e current_hash p post_link in
    let changed := metadata_changed e data old_item in
    let needs_rebuild_list := full || changed in
    let st := if changed && negb full then set_posts_data_changed true st else st in
    let st := if needs_rebuild_list && negb full
              then set_posts_data_changed true st else st in
    fs ← cleanup_renamed (Dict.get "link" old_item) post_link (out st);
    let st := set_out fs st in
    let st := set_tag_map (add_to_tag_map p (tag_map st)) st in
    let st := set_parsed_posts (parsed_posts st ++ [p]) st in
    let st := set_new_manifest (set_post_entry relative_path data (new_manifest st)) st in
    Some (if needs_html then set_posts_to_build (posts_to_build st ++ [p]) st else st).

(** The whole loop. *)
Fixpoint process_all (e : env) (old_manifest : manifest) (theme_changed : bool)
    (md_files : list string) (st : build_state) : option build_state :=
  match md_files with
  | [] => Some st
  | f :: rest =>
      st' ← process_md e old_manifest theme_changed st f;
      process_all e old_manifest theme_changed rest st'
  end.

(** *** Orphan reconciliation *)

(** [set(old_manifest.get('posts', {}).keys()) - source_md_paths] *)
Definition deleted_paths (old_manifest : manifest) (sources : gset string) : gset string :=
  list_to_set (Dict.keys (bucket (m_posts old_manifest))) ∖ sources.

(** The body of [for deleted_path in deleted_paths]. [None] is the uncaught
    [AttributeError] of [.strip] on a link that is not a string. *)
Definition reconcile_one (old_manifest : manifest) (st : build_state)
    (deleted_path : string) : option build_state :=
  let item := old_item_of old_manifest deleted_path in
  let deleted_link := Dict.get "link" item in
  let st := set_posts_data_changed true st in
  if cleanable deleted_link then
    match deleted_link with
    | PStr l =>
        let st := set_out (cleanup_deleted l (out st)) st in
        Some (set_new_manifest (pop_post_entry deleted_path (new_manifest st)) st)
    | _ => None
    end
  else Some st.

Fixpoint reconcile_all (old_manifest : manifest) (paths : list string)
    (st : build_state) : option build_state :=
  match paths with
  | [] => Some st
  | p :: rest =>
      st' ← reconcile_one old_manifest st p;
      reconcile_all old_manifest rest st'
  end.

(** *** Phase 5 *)

(** [for post in posts_to_build_all: generator.generate_post_page(post)] *)
Definition build_post_pages (e : env) (posts : list post) (st : build_state)
    : build_state :=
  fold_left
    (fun st p =>
       set_out (generate_post_page e p (out st))
         (set_calls (calls st ++ [GeneratePostPage p]) st))
    posts st.

(** [not old_manifest or posts_data_changed or theme_changed] *)
Definition rebuild_lists (old_manifest : manifest) (posts_data_changed theme_changed : bool)
    : bool :=
  negb (manifest_truthy old_manifest) || posts_data_changed || theme_changed.

(** The calls of the list-page branch, in program order. *)
Definition aggregate_calls (final_parsed_posts : list post)
    (tm : Dict.t (list post)) : list event :=
  [ GenerateIndexHtml final_parsed_posts;
    GenerateArchiveHtml final_parsed_posts;
    GenerateTagsListHtml tm ]
  ++ map (fun kv => GenerateTagPage (fst kv) (sorted_by_date_desc (snd kv))) tm
  ++ [ GenerateRobotsTxt; WriteSitemap final_parsed_posts; WriteRss final_parsed_posts ].

(** *** The driver *)

Record build_result := {
  (** the locals at the end of the run *)
  final : build_state;
  theme_changed : bool;
  final_parsed_posts : list post;
  posts_to_build_all : list post;
  (** whether the list pages were rebuilt *)
  lists_rebuilt : bool;
  (** what [save_manifest] wrote *)
  saved : manifest_file;
}.

(** One [os.makedirs] at the start of the run; a failure is not caught. *)
Definition prepare_step (acc : option FS.t) (d : string) : option FS.t :=
  fs ← acc;
  let r := FS.makedirs d fs in
  if snd r then Some (fst r) else None.

(** The directories [build_site] makes before anything else. *)
Definition prepared_dirs : list string :=
  [ BUILD_DIR; Path.join BUILD_DIR [POSTS_DIR_NAME]; Path.join BUILD_DIR ["tags"];
    Path.join BUILD_DIR ["static"]; Path.join BUILD_DIR ["assets"] ].

Definition prepare_dirs (fs : FS.t) : option FS.t :=
  fold_left prepare_step prepared_dirs (Some fs).

(** The locals before the document loop. *)
Definition initial_state (manifest0 : manifest) (fs : FS.t) : build_state :=
  {| new_manifest := manifest0; posts_to_build := []; posts_data_changed := false;
     parsed_posts := []; tag_map := []; source_md_paths := ∅;
     out := fs; calls := [] |}.

(** Phase 5, [Generating HTML], and the save of the manifest. *)
Definition generate_html (e : env) (old_manifest : manifest) (theme : bool)
    (st : build_state) : build_result :=
  let sorted := sorted_by_date_desc (parsed_posts st) in
  let to_build := if theme then sorted else posts_to_build st in
  let st := build_post_pages e to_build st in
  let lists := rebuild_lists old_manifest (posts_data_changed st) theme in
  let st := if lists
            then set_calls (calls st ++ aggregate_calls sorted (tag_map st)) st
            else st in
  {| final := st; theme_changed := theme; final_parsed_posts := sorted;
     posts_to_build_all := to_build; lists_rebuilt := lists;
     saved := save_manifest (new_manifest st) |}.

(** [build_site]. The run starts from the manifest file [mf] and the output
    tree [fs]; [None] is a run aborted by an uncaught exception. Copies of
    static assets and the previous/next navigation written into the post
    objects are left out: no output decision reads them. *)
Definition build_site (e : env) (mf : manifest_file) (fs : FS.t) : option build_result :=
  fs ← prepare_dirs fs;
  let old_manifest := load_manifest mf in
  let '(theme, manifest0) := check_theme e old_manifest in
  st ← process_all e old_manifest theme (md_files e) (initial_state manifest0 fs);
  st ← reconcile_all old_manifest
         (elements (deleted_paths old_manifest (source_md_paths st))) st;
  Some (generate_html e old_manifest theme st).

(** ** A concrete world, used to run the model *)

Module Demo.

Record doc := {
  doc_path : string;
  doc_hash : string;
  doc_meta : metadata;
  doc_html : string;
}.

Definition find_doc (docs : list doc) (p : string) : option doc :=
  List.find (fun d => String.eqb (doc_path d) p) docs.

Definition two_digits (n : nat) : string :=
  if n <? 10 then "0" +:+ pretty n else pretty n.

(** A source tree with the dependency files [theme] (path and digest) and
    the markdown files [docs]; the build runs in the script directory. *)
Definition mk_env (theme : Dict.t string) (docs : list doc) : env :=
  {| path_exists := fun p => Dict.mem p theme || bool_decide (is_Some (find_doc docs p));
     get_full_content_hash := fun p =>
       match Dict.lookup p theme, find_doc docs p with
       | Some h, _ => h
       | None, Some d => doc_hash d
       | None, None => ""
       end;
     glob_markdown := map doc_path docs;
     glob_cwd := [];
     relpath := fun p => p;
     get_metadata_and_content := fun p =>
       match find_doc docs p with
       | Some d => (doc_meta d, doc_html d)
       | None => (empty_metadata, "")
       end;
     render := fun _ => Some "<html>";
     repr_str := fun s => "'" +:+ s +:+ "'";
     strftime_ymd := fun d =>
       pretty (year d) +:+ "-" +:+ two_digits (month d) +:+ "-" +:+ two_digits (day d) |}.

Definition theme1 : Dict.t string :=
  [ ("assets/style.css", "css1"); ("templates/base.html", "base1");
    ("autobuild.py", "ab1") ].

Definition meta (title : string) (d : date) (tags : list string) : metadata :=
  {| meta_slug := None; meta_hidden := None; meta_date := Some d;
     meta_title := Some (PStr title);
     meta_tags := Some (map (fun t => {| tag_name := t; tag_slug := t |}) tags);
     meta_status := None |}.

Definition doc_a : doc :=
  {| doc_path := "markdown/a.md"; doc_hash := "ha";
     doc_meta := meta "A" {| year := 2024; month := 1; day := 2 |} ["x"];
     doc_html := "<p>a</p>" |}.

Definition doc_b : doc :=
  {| doc_path := "markdown/b.md"; doc_hash := "hb";
     doc_meta := meta "B" {| year := 2024; month := 3; day := 4 |} ["x"; "y"];
     doc_html := "<p>b</p>" |}.

End Demo.

(** ** Notions used in the statements *)

(** A document that becomes a post: neither special nor hidden, with date
    and title. *)
Definition is_normal (e : env) (md_file : string) : bool :=
  negb (is_404_page e md_file) && negb (is_hidden e md_file)
  && has_required_fields (metadata_of e md_file).

(** The manifest entry a document gets, if it gets one. *)
Definition entry_of (e : env) (md_file : string) : option entry :=
  let current_hash := get_full_content_hash e md_file in
  if is_404_page e md_file
  then Some [("hash", PStr current_hash); ("link", PStr "404.html")]
  else if is_hidden e md_file
  then Some [("hash", PStr current_hash); ("link", PStr "hidden")]
  else if has_required_fields (metadata_of e md_file)
  then Some (new_manifest_data e current_hash (post_of e md_file) (post_link_of e md_file))
  else None.

Definition manifest_step (e : env) (m : manifest) (md_file : string) : manifest :=
  match entry_of e md_file with
  | Some en => set_post_entry (relative_path e md_file) en m
  | None => m
  end.

(** Is the standalone page of [md_file] stale in this run? *)
Definition stale_html (e : env) (old_manifest : manifest) (theme_changed : bool)
    (md_file : string) : bool :=
  needs_rebuild_html (get_full_content_hash e md_file)
    (old_item_of old_manifest (relative_path e md_file)) theme_changed.

(** The special page call of a document, when it has one. *)
Definition special_call (e : env) (md_file : string) : option event :=
  let m := metadata_of e md_file in
  if is_404_page e md_file
  then Some (GeneratePageHtml (content_html_of e md_file)
               (default PNone (meta_title m)) "404" "404.html")
  else if is_hidden e md_file && is_about_page e md_file
  then Some (GeneratePageHtml (content_html_of e md_file)
               (default PNone (meta_title m)) "about" "about.html")
  else None.

(** The special-page calls of the loop, in program order. *)
Definition special_calls (e : env) (old : manifest) (theme : bool)
    (files : list string) : list event :=
  flat_map
    (fun f => match special_call e f with
              | Some c => if stale_html e old theme f then [c] else []
              | None => []
              end)
    files.

(** The theme dependency set: stylesheet, base template, core files. *)
Definition theme_dependencies : list string :=
  css_source :: base_template_source :: CORE_DEPENDENCIES.

(** The hash the old manifest stores for a dependency: the stylesheet is
    kept under [static_files], everything else under [templates]. *)
Definition stored_hash (old_manifest : manifest) (dep : string) : pyval :=
  if String.eqb dep css_source
  then Dict.get dep (bucket (m_static_files old_manifest))
  else Dict.get dep (bucket (m_templates old_manifest)).




(** The manifest a completed run saves, in closed form. *)
Definition manifest_of (e : env) : manifest :=
  fold_left (manifest_step e) (md_files e) (snd (check_theme e empty_dict_manifest)).

(** The last component of a path ends with [index.html]. *)
Definition ends_index (p : FS.path) : Prop :=
  exists pre y, p = pre ++ [y +:+ "index.html"].

(** The prepared directories and their parents, as paths. *)
Definition prepared : list FS.path :=
  flat_map (fun d => FS.prefixes [] (FS.to_path d)) prepared_dirs.

(** No file sits where a prepared directory goes. *)
Definition safe (fs : FS.t) : Prop :=
  forall p c, p ∈ prepared -> FS.find p fs <> Some (FS.File c).

(** The run after [r], on the source tree [e]. *)
Definition rebuild (e : env) (r : build_result) : option build_result :=
  build_site e (saved r) (out (final r)).

(** The aggregate calls of a run. *)
Definition aggregate_calls_of (r : build_result) : list event :=
  List.filter is_aggregate_call (calls (final r)).

(** A slug change of [doc_a]: other bytes, other link. *)
Definition doc_a_renamed : Demo.doc :=
  {| Demo.doc_path := "markdown/a.md"; Demo.doc_hash := "ha2";
     Demo.doc_meta :=
       {| meta_slug := Some (PStr "renamed"); meta_hidden := None;
          meta_date := Some {| year := 2024; month := 1; day := 2 |};
          meta_title := Some (PStr "A");
          meta_tags := Some [{| tag_name := "x"; tag_slug := "x" |}];
          meta_status := None |};
     Demo.doc_html := "<p>a</p>" |}.

Definition demo_env : env := Demo.mk_env Demo.theme1 [Demo.doc_a; Demo.doc_b].

(** A manifest that knows [a.md] with an older digest. *)
Definition stale_manifest : manifest :=
  {| m_posts := Some [("markdown/a.md",
                       [("hash", PStr "old"); ("link", PStr "posts/a.html")])];
     m_static_files := Some []; m_templates := Some [] |}.

(** A markdown file the parser could not read: no metadata at all. *)
Definition doc_unreadable : Demo.doc :=
  {| Demo.doc_path := "markdown/broken.md"; Demo.doc_hash := "";
     Demo.doc_meta := empty_metadata; Demo.doc_html := "" |}.

(** ** Further notions used in the statements *)

(** A document whose bytes are as recorded but whose listed fields are not:
    a normal document that needs no full build and whose new entry differs
    from the old one in a field other than the hash. *)
Definition metadata_only_change (e : env) (old_manifest : manifest)
    (md_file : string) : bool :=
  let current_hash := get_full_content_hash e md_file in
  let old_item := old_item_of old_manifest (relative_path e md_file) in
  is_normal e md_file
  && negb (needs_full_build current_hash old_item)
  && metadata_changed e
       (new_manifest_data e current_hash (post_of e md_file) (post_link_of e md_file))
       old_item.

(** A normal document that needs a full build. *)
Definition needs_page (e : env) (old_manifest : manifest) (md_file : string) : bool :=
  is_normal e md_file
  && needs_full_build (get_full_content_hash e md_file)
       (old_item_of old_manifest (relative_path e md_file)).

(** The tags of a post: [post.get('tags', [])] *)
Definition post_tag_names (p : post) : list string :=
  map tag_name (default [] (meta_tags (post_metadata p))).

(** The sort key of a post, [p['date']]. *)
Definition post_date (p : post) : option date := meta_date (post_metadata p).

(** [a] is not older than [b]. *)
Definition not_older (a b : post) : Prop := key_ltb (post_date a) (post_date b) = false.

(** Where [generate_post_page] puts the page of a link:
    [os.path.join(config.BUILD_DIR, clean_name)]. *)
Definition post_output_dir (relative_link : string) : string :=
  Path.join BUILD_DIR
    [Str.strip "/"%char
       (if Str.endswith (Str.lower relative_link) ".html"
        then Str.drop_last 5 relative_link else relative_link)].

(** [os.path.join(output_dir, 'index.html')] *)
Definition post_output_path (relative_link : string) : string :=
  Path.join (post_output_dir relative_link) ["index.html"].

#[global] Instance date_eq_dec : EqDecision date.
Proof. solve_decision. Defined.

(** The posts of one date, in the order of the list. *)
Definition posts_of_date (d : option date) (l : list post) : list post :=
  List.filter (fun p => bool_decide (post_date p = d)) l.

(** ** generator.py: internal URLs *)

(** [config.py] *)
Definition RSS_FILE : string := "rss.xml".
Definition SITEMAP_FILE : string := "sitemap.xml".

(** [get_site_root_prefix], as a function of [config.REPO_SUBPATH]. (It
    also stores its result in [config.SITE_ROOT].) *)
Definition get_site_root_prefix (repo_subpath : string) : string :=
  let root := Parser.strip_space repo_subpath in
  if String.eqb root "" || String.eqb root "/" then ""
  else
    let root := Str.rstrip "/"%char root in
    if Str.startswith root "/" then root else "/" +:+ root.

(** [make_internal_url] *)
Definition make_internal_url (repo_subpath path : string) : string :=
  if String.eqb path "" then ""
  else
    let normalized_path := if Str.startswith path "/" then path else "/" +:+ path in
    let site_root := get_site_root_prefix repo_subpath in
    let normalized_path :=
      if Str.endswith (Str.lower normalized_path) ".html"
         && negb (Str.endswith (Str.lower normalized_path) RSS_FILE)
         && negb (Str.endswith (Str.lower normalized_path) SITEMAP_FILE)
         && negb (String.eqb (Str.lower normalized_path) "/404.html")
      then Str.drop_last 5 normalized_path else normalized_path in
    let normalized_path :=
      if String.eqb (Str.lower normalized_path) "/index" then "/"
      else if String.eqb (Str.lower normalized_path) "/404"
              || String.eqb (Str.lower normalized_path) "/404.html"
      then normalized_path
      else if Str.endswith (Str.lower normalized_path) RSS_FILE then normalized_path
      else if Str.endswith (Str.lower normalized_path) SITEMAP_FILE then normalized_path
      else if negb (String.eqb normalized_path "/")
              && negb (Str.endswith normalized_path "/")
      then normalized_path +:+ "/"
      else normalized_path in
    if String.eqb site_root "" then normalized_path
    else if String.eqb normalized_path "/" then site_root +:+ "/"
    else site_root +:+ normalized_path.

(** ** autobuild.py: previous/next navigation *)

(** [is_post_hidden]; the result is [None] when [.lower()] is called on a
    status that is not a string ([AttributeError]). *)
Definition is_post_hidden (p : post) : option bool :=
  match default (PStr "published") (meta_status (post_metadata p)) with
  | PStr s =>
      Some (String.eqb (Str.lower s) "draft"
            || bool_decide (meta_hidden (post_metadata p) = Some (PBool true)))
  | _ => None
  end.

(** [[p for p in final_parsed_posts if not is_post_hidden(p)]] *)
Fixpoint visible_posts (l : list post) : option (list post) :=
  match l with
  | [] => Some []
  | p :: l' =>
      h ← is_post_hidden p;
      v ← visible_posts l';
      Some (if h : bool then v else p :: v)
  end.

(** [{'title': q['title'], 'link': q['link']}] *)
Record nav := { nav_title : pyval; nav_link : string }.

Definition nav_of (q : post) : option nav :=
  title ← meta_title (post_metadata q);
  link ← post_link q;
  Some {| nav_title := title; nav_link := link |}.

(** The keys [prev_post_nav] and [next_post_nav] of one post object: [None]
    as long as the keys are absent. *)
Abbreviation nav_slot := (option (option nav * option nav)).

(** [next(p for p in final_parsed_posts if p['link'] == link)], as the
    position of the object found. *)
Fixpoint first_with_link (link : string) (l : list post) : option nat :=
  match l with
  | [] => None
  | p :: l' =>
      pl ← post_link p;
      if String.eqb pl link then Some 0 else S <$> first_with_link link l'
  end.

(** The value stored for a neighbour: [None] without one. *)
Definition nav_data (q : option post) : option (option nav) :=
  match q with
  | Some q => Some <$> nav_of q
  | None => Some None
  end.

(** The body of [for i, post in enumerate(visible_posts_for_nav)]; [store]
    holds the navigation keys of the objects of [posts], by position. *)
Definition nav_step (posts visible : list post) (store : list nav_slot)
    (i : nat) (p : post) : option (list nav_slot) :=
  link ← post_link p;
  idx ← first_with_link link posts;
  prev ← match i with
         | 0 => Some None
         | S j => nav_data (visible !! j)
         end;
  next ← nav_data (visible !! S i);
  Some (<[idx := Some (prev, next)]> store).

Fixpoint nav_loop (posts visible : list post) (i : nat) (rest : list post)
    (store : list nav_slot) : option (list nav_slot) :=
  match rest with
  | [] => Some store
  | p :: rest' =>
      store' ← nav_step posts visible store i p;
      nav_loop posts visible (S i) rest' store'
  end.

(** The navigation injection of [build_site]. *)
Definition inject_nav (posts : list post) : option (list nav_slot) :=
  visible ← visible_posts posts;
  nav_loop posts visible 0 visible (replicate (List.length posts) None).

(** What the [k]-th visible post is given. *)
Definition nav_entry (visible : list post) (k : nat) : option nav * option nav :=
  (match k with
   | 0 => None
   | S j => visible !! j ≫= nav_of
   end,
   visible !! S k ≫= nav_of).

(** The posts that are not hidden, in the order of the list. *)
Definition shown_posts (posts : list post) : list post :=
  filter (fun p => is_post_hidden p = Some false) posts.

(** The state of the navigation keys after [m] rounds of the loop. *)
Definition nav_inv (posts : list post) (m : nat) (store : list nav_slot) : Prop :=
  List.length store = List.length posts
  /\ forall i p, posts !! i = Some p ->
       (forall k, k < m -> shown_posts posts !! k = Some p ->
          store !! i = Some (Some (nav_entry (shown_posts posts) k)))
       /\ ((forall k, k < m -> shown_posts posts !! k <> Some p) -> store !! i = Some None).

(** * Properties *)

(** ** The string and tree functions at small inputs *)

Example lower_404 : Str.lower "404.HTML" = "404.html".
Proof. reflexivity. Qed.

Example strip_split : Str.split "/"%char (Str.strip "/"%char "/posts/a.html/") = ["posts"; "a.html"].
Proof. reflexivity. Qed.

Example join_parts : Path.join "_site" ["posts"; ""; "a.html"] = "_site/posts/a.html".
Proof. reflexivity. Qed.

Example splitext_md : Path.splitext_root "2024-01-01-hello.md" = "2024-01-01-hello"
  /\ Path.splitext_root ".hidden" = ".hidden"
  /\ Path.splitext_root "noext" = "noext".
Proof. repeat split; reflexivity. Qed.

Example fs_demo :
  let fs := FS.write "_site/posts/a/index.html" "x" (fst (FS.makedirs "_site/posts/a" [])) in
  FS.isdir "_site/posts/a" fs = true
  /\ FS.exists_ "_site/posts/a.html" fs = false
  /\ FS.rmtree "_site/posts/a" fs = [(["_site"], FS.Dir); (["_site"; "posts"], FS.Dir)].
Proof. vm_compute. repeat split; reflexivity. Qed.


(** ** Dictionaries *)

Module DictFacts.
Import Dict.

Section facts.
Context {V : Type}.
Implicit Types (d : t V) (k : string) (v : V).

Lemma lookup_set_eq d k v : lookup k (set k v d) = Some v.
Proof.
  induction d as [|[k' v'] d IH]; simpl.
  - by rewrite String.eqb_refl.
  - destruct (String.eqb k k') eqn:E; simpl; rewrite E; [done | apply IH].
Qed.

Lemma lookup_set_ne d k k' v : k <> k' -> lookup k' (set k v d) = lookup k' d.
Proof.
  intros Hne. induction d as [|[k0 v0] d IH]; simpl.
  - destruct (String.eqb k' k) eqn:E; [|done].
    apply String.eqb_eq in E. congruence.
  - destruct (String.eqb k k0) eqn:E; simpl.
    + apply String.eqb_eq in E. subst k0.
      destruct (String.eqb k' k) eqn:E'; [|done].
      apply String.eqb_eq in E'. congruence.
    + destruct (String.eqb k' k0); [done | apply IH].
Qed.

Lemma lookup_None_keys d k : lookup k d = None <-> k ∉ keys d.
Proof.
  unfold keys. induction d as [|[k' v'] d IH]; simpl.
  - split; [intros _; apply not_elem_of_nil | done].
  - rewrite not_elem_of_cons. destruct (String.eqb k k') eqn:E.
    + apply String.eqb_eq in E. split; [done | intros [? _]; done].
    + apply String.eqb_neq in E. rewrite IH. tauto.
Qed.

Lemma lookup_Some_keys d k v : lookup k d = Some v -> k ∈ keys d.
Proof.
  intros H. destruct (decide (k ∈ keys d)) as [|Hn]; [done|].
  apply lookup_None_keys in Hn. congruence.
Qed.

Lemma keys_set d k v : forall x, x ∈ keys (set k v d) <-> x = k \/ x ∈ keys d.
Proof.
  unfold keys. induction d as [|[k' v'] d IH]; simpl; intros x.
  - rewrite list_elem_of_singleton. rewrite elem_of_nil. tauto.
  - destruct (String.eqb k k') eqn:E; simpl.
    + apply String.eqb_eq in E. subst k'. rewrite !elem_of_cons. tauto.
    + rewrite !elem_of_cons, IH. tauto.
Qed.

Lemma keys_pop d k : forall x, x ∈ keys (pop k d) -> x ∈ keys d.
Proof.
  unfold keys. induction d as [|[k' v'] d IH]; simpl; intros x; [done|].
  destruct (String.eqb k k'); simpl; rewrite !elem_of_cons; auto.
  intros [->|H]; auto.
Qed.

Lemma pop_absent d k : lookup k d = None -> pop k d = d.
Proof.
  induction d as [|[k' v'] d IH]; simpl; [done|].
  destruct (String.eqb k k'); [done|]. intros H. by rewrite IH.
Qed.
End facts.

Lemma get_eq (d : t pyval) k v : lookup k d = Some v -> get k d = v.
Proof. unfold get. by intros ->. Qed.

End DictFacts.

(** ** Staleness classifier *)

Lemma py_ne_true a b : py_ne a b = true <-> a <> b.
Proof. unfold py_ne. rewrite negb_true_iff, bool_decide_eq_false. done. Qed.

Lemma py_ne_false a b : py_ne a b = false <-> a = b.
Proof. unfold py_ne. rewrite negb_false_iff, bool_decide_eq_true. done. Qed.

Lemma old_item_absent old_manifest k :
  Dict.lookup k (bucket (m_posts old_manifest)) = None -> old_item_of old_manifest k = [].
Proof. unfold old_item_of. by intros ->. Qed.

(** C1. For the document at [md_file], [needs_full_build] is true exactly
    when the current content hash differs from the hash of the old manifest
    entry, or there is no old entry, or the old entry has no [link] key. In
    particular it is true whenever the stored hash is another digest than
    the current one; the metadata is not an input of the classifier. *)
Theorem needs_full_build_iff (e : env) (old_manifest : manifest) (md_file : string) :
  let current_hash := get_full_content_hash e md_file in
  let old_entry := Dict.lookup (relative_path e md_file) (bucket (m_posts old_manifest)) in
  let old_item := old_item_of old_manifest (relative_path e md_file) in
  (needs_full_build current_hash old_item = true
   <-> (PStr current_hash <> Dict.get "hash" old_item
        \/ old_entry = None
        \/ Dict.lookup "link" old_item = None))
  /\ (forall old_hash : string,
        Dict.get "hash" old_item = PStr old_hash ->
        current_hash <> old_hash ->
        needs_full_build current_hash old_item = true).
Proof.
  intros current_hash old_entry old_item.
  assert (Hiff : needs_full_build current_hash old_item = true
     <-> (PStr current_hash <> Dict.get "hash" old_item
          \/ old_entry = None \/ Dict.lookup "link" old_item = None)).
  { unfold needs_full_build. rewrite orb_true_iff, py_ne_true, negb_true_iff.
    unfold Dict.mem. split.
    - intros [H|H]; [by left|]. right; right.
      by destruct (Dict.lookup "link" old_item).
    - intros [H|[H|H]]; [by left| |].
      + right. subst old_item old_entry.
        by rewrite (old_item_absent _ _ H).
      + right. by rewrite H. }
  split; [exact Hiff|].
  intros old_hash Hold Hne. apply Hiff. left. rewrite Hold. congruence.
Qed.

(** ** Post pages without a real link *)

(** C10. [generate_post_page] leaves the output tree as it is (no directory
    made, no file written) for a post whose link is absent, empty, or
    [404.html] in any letter case. *)
Theorem generate_post_page_no_link (e : env) (p : post) (fs : FS.t) :
  (post_link p = None
   \/ post_link p = Some ""
   \/ exists l, post_link p = Some l /\ Str.lower l = "404.html") ->
  generate_post_page e p fs = fs.
Proof.
  unfold generate_post_page. intros [H|[H|(l & H & Hl)]]; rewrite H; [done..|].
  destruct (String.eqb l ""); [done|]. by rewrite Hl.
Qed.

(** ** The document loop *)

#[local] Arguments metadata_changed : simpl never.
#[local] Arguments new_manifest_data : simpl never.
#[local] Arguments needs_full_build : simpl never.
#[local] Arguments needs_rebuild_html : simpl never.
#[local] Arguments cleanup_renamed : simpl never.
#[local] Arguments cleanup_deleted : simpl never.
#[local] Arguments py_str : simpl never.
#[local] Arguments post_link_of : simpl never.
#[local] Arguments post_of : simpl never.
#[local] Arguments metadata_of : simpl never.
#[local] Arguments content_html_of : simpl never.
#[local] Arguments generate_post_page : simpl never.
#[local] Arguments generate_page_html : simpl never.
#[local] Arguments add_to_tag_map : simpl never.
#[local] Arguments relative_path : simpl never.
#[local] Arguments old_item_of : simpl never.
#[local] Arguments set_post_entry : simpl never.
#[local] Arguments pop_post_entry : simpl never.

Lemma build_special_spec e needs_html m content_html page_id link st st' :
  build_special e needs_html m content_html page_id link st = Some st' ->
  new_manifest st' = new_manifest st
  /\ posts_to_build st' = posts_to_build st
  /\ posts_data_changed st' = posts_data_changed st
  /\ parsed_posts st' = parsed_posts st
  /\ tag_map st' = tag_map st
  /\ source_md_paths st' = source_md_paths st
  /\ calls st' = calls st ++
       (if needs_html
        then [GeneratePageHtml content_html (default PNone (meta_title m)) page_id link]
        else []).
Proof.
  unfold build_special. destruct needs_html.
  - destruct (meta_title m); [|done]. intros [= <-]. simpl. by repeat split.
  - intros [= <-]. rewrite app_nil_r. by repeat split.
Qed.

Lemma build_special_fresh e m content_html page_id link st :
  build_special e false m content_html page_id link st = Some st.
Proof. done. Qed.

(** What one pass of the loop body does to the locals. *)
Lemma process_md_spec e old theme st f st' :
  process_md e old theme st f = Some st' ->
  source_md_paths st' = {[relative_path e f]} ∪ source_md_paths st
  /\ new_manifest st' = manifest_step e (new_manifest st) f
  /\ parsed_posts st' = parsed_posts st ++ (if is_normal e f then [post_of e f] else [])
  /\ posts_to_build st' = posts_to_build st ++
       (if is_normal e f && stale_html e old theme f then [post_of e f] else [])
  /\ calls st' = calls st ++
       (match special_call e f with
        | Some c => if stale_html e old theme f then [c] else []
        | None => []
        end)
  /\ (posts_data_changed st = true -> posts_data_changed st' = true).
Proof.
  unfold process_md, manifest_step, entry_of, is_normal, special_call, stale_html.
  destruct (is_404_page e f) eqn:E404; simpl.
  { destruct (build_special _ _ _ _ _ _ _) as [st1|] eqn:Hs; simpl; [|done].
    intros [= <-]. apply build_special_spec in Hs as (Hm & Hb & Hd & Hp & _ & Hsrc & Hc).
    simpl in *. rewrite Hm, Hb, Hd, Hp, Hc, !app_nil_r. by repeat split. }
  destruct (is_hidden e f) eqn:Ehid; simpl.
  { destruct (is_about_page e f) eqn:Eab; simpl.
    - destruct (build_special _ _ _ _ _ _ _) as [st1|] eqn:Hs; simpl; [|done].
      intros [= <-]. apply build_special_spec in Hs as (Hm & Hb & Hd & Hp & _ & Hsrc & Hc).
      simpl in *. rewrite Hm, Hb, Hd, Hp, Hc, !app_nil_r. by repeat split.
    - intros [= <-]. simpl. rewrite !app_nil_r. by repeat split. }
  destruct (has_required_fields (metadata_of e f)) eqn:Ereq; simpl.
  2:{ intros [= <-]. simpl. rewrite !app_nil_r. by repeat split. }
  destruct (needs_full_build _ _), (metadata_changed _ _ _); simpl;
    (destruct (cleanup_renamed _ _ _) as [fs1|]; simpl; [|done]);
    intros [= <-];
    destruct (needs_rebuild_html _ _ _); simpl;
    rewrite ?app_nil_r; by repeat split.
Qed.

(** The loop in closed form. *)
Lemma process_all_spec e old theme files : forall st st',
  process_all e old theme files st = Some st' ->
  source_md_paths st' = list_to_set (map (relative_path e) files) ∪ source_md_paths st
  /\ new_manifest st' = fold_left (manifest_step e) files (new_manifest st)
  /\ parsed_posts st' =
       parsed_posts st ++ map (post_of e) (List.filter (is_normal e) files)
  /\ posts_to_build st' =
       posts_to_build st ++
       map (post_of e)
         (List.filter (fun f => is_normal e f && stale_html e old theme f) files)
  /\ calls st' = calls st ++ special_calls e old theme files
  /\ (posts_data_changed st = true -> posts_data_changed st' = true).
Proof.
  induction files as [|f files IH]; intros st st'; simpl.
  - intros [= <-]. rewrite !app_nil_r. repeat split; try done. set_solver.
  - destruct (process_md e old theme st f) as [st1|] eqn:H1; simpl; [|done].
    intros H2. apply process_md_spec in H1 as (Hs & Hm & Hp & Hb & Hc & Hd).
    apply IH in H2 as (Hs' & Hm' & Hp' & Hb' & Hc' & Hd').
    rewrite Hs', Hm', Hp', Hb', Hc', Hs, Hm, Hp, Hb, Hc.
    repeat split.
    + set_solver.
    + destruct (is_normal e f); simpl; by rewrite <- ?app_assoc.
    + destruct (is_normal e f && stale_html e old theme f); simpl;
        by rewrite <- ?app_assoc.
    + by rewrite <- app_assoc.
    + auto.
Qed.


(** ** Reconciliation and page generation *)

Lemma reconcile_one_spec old st p st' :
  reconcile_one old st p = Some st' ->
  source_md_paths st' = source_md_paths st
  /\ parsed_posts st' = parsed_posts st
  /\ posts_to_build st' = posts_to_build st
  /\ tag_map st' = tag_map st
  /\ calls st' = calls st
  /\ posts_data_changed st' = true
  /\ m_static_files (new_manifest st') = m_static_files (new_manifest st)
  /\ m_templates (new_manifest st') = m_templates (new_manifest st)
  /\ (new_manifest st' = new_manifest st
      \/ new_manifest st' = pop_post_entry p (new_manifest st)).
Proof.
  unfold reconcile_one. destruct (cleanable _).
  - destruct (Dict.get _ _); try done. intros [= <-]. simpl.
    repeat split; auto.
  - intros [= <-]. simpl. repeat split; auto.
Qed.

Lemma reconcile_all_spec old paths : forall st st',
  reconcile_all old paths st = Some st' ->
  source_md_paths st' = source_md_paths st
  /\ parsed_posts st' = parsed_posts st
  /\ posts_to_build st' = posts_to_build st
  /\ tag_map st' = tag_map st
  /\ calls st' = calls st
  /\ posts_data_changed st' = (posts_data_changed st || negb (bool_decide (paths = [])))
  /\ m_static_files (new_manifest st') = m_static_files (new_manifest st)
  /\ m_templates (new_manifest st') = m_templates (new_manifest st).
Proof.
  induction paths as [|p paths IH]; intros st st'; simpl.
  - intros [= <-]. rewrite orb_false_r. by repeat split.
  - destruct (reconcile_one old st p) as [st1|] eqn:H1; simpl; [|done].
    intros H2. apply reconcile_one_spec in H1 as (Hs & Hp & Hb & Ht & Hc & Hd & Hsf & Htp & _).
    apply IH in H2 as (Hs' & Hp' & Hb' & Ht' & Hc' & Hd' & Hsf' & Htp').
    rewrite Hs', Hp', Hb', Ht', Hc', Hd', Hsf', Htp', Hs, Hp, Hb, Ht, Hc, Hd, Hsf, Htp.
    rewrite orb_true_r. by repeat split.
Qed.

Lemma build_post_pages_spec e posts : forall st,
  let st' := build_post_pages e posts st in
  calls st' = calls st ++ map GeneratePostPage posts
  /\ new_manifest st' = new_manifest st
  /\ parsed_posts st' = parsed_posts st
  /\ posts_to_build st' = posts_to_build st
  /\ tag_map st' = tag_map st
  /\ source_md_paths st' = source_md_paths st
  /\ posts_data_changed st' = posts_data_changed st.
Proof.
  unfold build_post_pages.
  induction posts as [|p posts IH]; intros st; simpl.
  - rewrite app_nil_r. by repeat split.
  - destruct (IH (set_out (generate_post_page e p (out st))
                   (set_calls (calls st ++ [GeneratePostPage p]) st)))
      as (Hc & Hm & Hp & Hb & Ht & Hs & Hd).
    rewrite Hc, Hm, Hp, Hb, Ht, Hs, Hd. simpl. rewrite <- app_assoc. by repeat split.
Qed.

(** ** The driver, phase by phase *)

Lemma build_site_inv e mf fs r :
  build_site e mf fs = Some r ->
  let old := load_manifest mf in
  let theme := fst (check_theme e old) in
  exists fs0 st1 st2,
    prepare_dirs fs = Some fs0
    /\ process_all e old theme (md_files e)
         (initial_state (snd (check_theme e old)) fs0) = Some st1
    /\ reconcile_all old (elements (deleted_paths old (source_md_paths st1))) st1
       = Some st2
    /\ r = generate_html e old theme st2.
Proof.
  intros H. cbv zeta. unfold build_site in H.
  destruct (prepare_dirs fs) as [fs0|]; simpl in H; [|done].
  destruct (check_theme e (load_manifest mf)) as [theme manifest0]; simpl in *.
  destruct (process_all _ _ _ _ _) as [st1|] eqn:H1; simpl in H; [|done].
  destruct (reconcile_all _ _ _) as [st2|] eqn:H2; simpl in H; [|done].
  injection H as <-. by exists fs0, st1, st2.
Qed.

Lemma generate_html_spec e old theme st :
  let r := generate_html e old theme st in
  let to_build := if theme then sorted_by_date_desc (parsed_posts st)
                  else posts_to_build st in
  theme_changed r = theme
  /\ final_parsed_posts r = sorted_by_date_desc (parsed_posts st)
  /\ posts_to_build_all r = to_build
  /\ lists_rebuilt r = rebuild_lists old (posts_data_changed st) theme
  /\ saved r = Stored (new_manifest st)
  /\ parsed_posts (final r) = parsed_posts st
  /\ source_md_paths (final r) = source_md_paths st
  /\ calls (final r) =
       calls st ++ map GeneratePostPage to_build ++
       (if lists_rebuilt r
        then aggregate_calls (sorted_by_date_desc (parsed_posts st)) (tag_map st)
        else [])
  /\ tag_map (final r) = tag_map st.
Proof.
  intros r to_build. subst r. unfold generate_html. fold to_build.
  destruct (build_post_pages_spec e to_build st) as (Hc & Hm & Hp & Hb & Ht & Hs & Hd).
  cbn [theme_changed final_parsed_posts posts_to_build_all lists_rebuilt saved final].
  rewrite Hd.
  destruct (rebuild_lists old (posts_data_changed st) theme); simpl;
    rewrite ?Hc, ?Hm, ?Hp, ?Ht, ?Hs, ?app_nil_r, <- ?app_assoc; by repeat split.
Qed.

(** ** Sorting *)

Lemma insert_sorted_perm {A} (before : A -> A -> bool) x l :
  insert_sorted before x l ≡ₚ x :: l.
Proof.
  induction l as [|y l IH]; simpl; [done|].
  destruct (before y x); [|done].
  rewrite IH. apply Permutation_swap.
Qed.

Lemma sorted_by_perm {A} (before : A -> A -> bool) l : sorted_by before l ≡ₚ l.
Proof.
  induction l as [|x l IH]; simpl; [done|].
  by rewrite insert_sorted_perm, IH.
Qed.

(** ** Theme dependencies *)

Lemma check_core_fold_true e old deps : forall acc,
  fst acc = true -> fst (fold_left (check_core e old) deps acc) = true.
Proof.
  induction deps as [|d deps IH]; intros acc Hacc; simpl; [done|].
  apply IH. unfold check_core. destruct (path_exists e d); [|done].
  simpl. by rewrite Hacc.
Qed.

Lemma check_core_fold_changed e old deps dep : forall acc,
  dep ∈ deps ->
  path_exists e dep = true ->
  dependency_changed e dep (bucket (m_templates old)) = true ->
  fst (fold_left (check_core e old) deps acc) = true.
Proof.
  induction deps as [|d deps IH]; intros acc Hin Hex Hch; simpl.
  - by apply elem_of_nil in Hin.
  - apply elem_of_cons in Hin as [<-|Hin]; [|by apply IH].
    apply check_core_fold_true. unfold check_core. rewrite Hex. simpl.
    rewrite Hch. apply orb_true_r.
Qed.

Lemma check_theme_changed e old dep :
  dep ∈ theme_dependencies ->
  path_exists e dep = true ->
  PStr (get_full_content_hash e dep) <> stored_hash old dep ->
  fst (check_theme e old) = true.
Proof.
  unfold theme_dependencies, stored_hash, check_theme.
  intros Hin Hex Hne.
  apply elem_of_cons in Hin as [->|Hin].
  { apply check_core_fold_true. rewrite Hex. simpl in *.
    destruct (path_exists e base_template_source); simpl;
      unfold dependency_changed; apply py_ne_true in Hne; by rewrite Hne. }
  apply elem_of_cons in Hin as [->|Hin].
  { apply check_core_fold_true. rewrite Hex. simpl in *.
    unfold dependency_changed at 2. apply py_ne_true in Hne. rewrite Hne.
    apply orb_true_r. }
  assert (String.eqb dep css_source = false) as Hcss.
  { unfold CORE_DEPENDENCIES in Hin.
    repeat (apply elem_of_cons in Hin as [->|Hin]; [reflexivity|]).
    by apply elem_of_nil in Hin. }
  rewrite Hcss in Hne.
  apply check_core_fold_changed with dep; try done.
  by apply py_ne_true.
Qed.


(** ** The saved manifest *)

Lemma check_core_fold_posts e old deps : forall acc,
  m_posts (snd (fold_left (check_core e old) deps acc)) = m_posts (snd acc).
Proof.
  induction deps as [|d deps IH]; intros acc; simpl; [done|].
  rewrite IH. unfold check_core. by destruct (path_exists e d).
Qed.

(** The posts bucket is empty when the document loop starts. *)
Lemma check_theme_posts e old : m_posts (snd (check_theme e old)) = Some [].
Proof.
  unfold check_theme. rewrite check_core_fold_posts.
  by destruct (path_exists e css_source), (path_exists e base_template_source).
Qed.

Lemma manifest_step_keys e m f k :
  k ∈ Dict.keys (bucket (m_posts (manifest_step e m f))) ->
  k = relative_path e f \/ k ∈ Dict.keys (bucket (m_posts m)).
Proof.
  unfold manifest_step. destruct (entry_of e f); [|auto].
  unfold set_post_entry. simpl. apply DictFacts.keys_set.
Qed.

Lemma manifest_fold_keys e files : forall m k,
  k ∈ Dict.keys (bucket (m_posts (fold_left (manifest_step e) files m))) ->
  k ∈ map (relative_path e) files \/ k ∈ Dict.keys (bucket (m_posts m)).
Proof.
  induction files as [|f files IH]; intros m k; simpl; [auto|].
  intros H. apply IH in H as [H|H].
  - left. by apply elem_of_cons; right.
  - apply manifest_step_keys in H as [->|H]; [|auto].
    left. by apply elem_of_cons; left.
Qed.

Lemma reconcile_all_keys old paths : forall st st' k,
  reconcile_all old paths st = Some st' ->
  k ∈ Dict.keys (bucket (m_posts (new_manifest st'))) ->
  k ∈ Dict.keys (bucket (m_posts (new_manifest st))).
Proof.
  induction paths as [|p paths IH]; intros st st' k; simpl.
  - by intros [= <-].
  - destruct (reconcile_one old st p) as [st1|] eqn:H1; simpl; [|done].
    intros H2 Hk. apply (IH _ _ _ H2) in Hk.
    apply reconcile_one_spec in H1 as (_ & _ & _ & _ & _ & _ & _ & _ & [E|E]);
      rewrite E in Hk; [done|].
    unfold pop_post_entry in Hk. simpl in Hk. by apply DictFacts.keys_pop in Hk.
Qed.

(** C9. The keys of the posts mapping of the saved manifest are relative
    paths of markdown files discovered in this run: the mapping starts
    empty, only discovered documents add to it, and so no path of the old
    manifest that was not discovered again is a key of it. *)
Theorem saved_posts_within_sources (e : env) (mf : manifest_file) (fs : FS.t)
    (r : build_result) :
  build_site e mf fs = Some r ->
  exists m,
    saved r = Stored m
    /\ source_md_paths (final r) = list_to_set (map (relative_path e) (md_files e))
    /\ (forall k, k ∈ Dict.keys (bucket (m_posts m)) -> k ∈ source_md_paths (final r))
    /\ (forall k, k ∈ deleted_paths (load_manifest mf) (source_md_paths (final r)) ->
          k ∉ Dict.keys (bucket (m_posts m))).
Proof.
  intros Hb. apply build_site_inv in Hb as (fs0 & st1 & st2 & _ & H1 & H2 & ->).
  cbv zeta in *.
  destruct (generate_html_spec e (load_manifest mf)
              (fst (check_theme e (load_manifest mf))) st2)
    as (_ & _ & _ & _ & Hsv & _ & Hsrc & _ & _).
  exists (new_manifest st2). rewrite Hsrc.
  pose proof (fun k => reconcile_all_keys _ _ _ _ k H2) as Hk2.
  apply reconcile_all_spec in H2 as (Hs2 & _).
  apply process_all_spec in H1 as (Hs1 & Hm1 & _).
  rewrite Hs2, Hs1. simpl.
  assert (Hsub : forall k, k ∈ Dict.keys (bucket (m_posts (new_manifest st2))) ->
                   k ∈ map (relative_path e) (md_files e)).
  { intros k Hk. apply Hk2 in Hk. rewrite Hm1 in Hk.
    apply manifest_fold_keys in Hk as [Hk|Hk]; [done|].
    simpl in Hk. rewrite check_theme_posts in Hk. by apply elem_of_nil in Hk. }
  repeat split.
  - done.
  - set_solver.
  - intros k Hk. apply Hsub in Hk. set_solver.
  - intros k Hk Hin. apply Hsub in Hin. unfold deleted_paths in Hk. set_solver.
Qed.

(** ** Documents without the required fields *)

Lemma has_required_fields_false e md_file :
  meta_date (fst (get_metadata_and_content e md_file)) = None
  \/ meta_title (fst (get_metadata_and_content e md_file)) = None ->
  has_required_fields (metadata_of e md_file) = false.
Proof.
  unfold has_required_fields, metadata_of. simpl. intros [-> | ->]; [done|].
  by destruct (meta_date _).
Qed.

(** C8. A document whose metadata has no date or no title, and which is
    neither the 404 page nor a hidden about page, is passed over without
    error: it does not become a post, is not queued for building, enters no
    tag list, no generator is called for it and nothing is written. The 404
    page and the hidden about page never reach that check: with a title
    they are rendered when stale, whatever else is missing. *)
Theorem incomplete_document_excluded (e : env) (old_manifest : manifest)
    (theme : bool) (st : build_state) (md_file : string) :
  meta_date (fst (get_metadata_and_content e md_file)) = None
  \/ meta_title (fst (get_metadata_and_content e md_file)) = None ->
  match special_call e md_file with
  | None =>
      exists st',
        process_md e old_manifest theme st md_file = Some st'
        /\ parsed_posts st' = parsed_posts st
        /\ posts_to_build st' = posts_to_build st
        /\ tag_map st' = tag_map st
        /\ calls st' = calls st
        /\ out st' = out st
        /\ posts_data_changed st' = posts_data_changed st
  | Some c =>
      meta_title (fst (get_metadata_and_content e md_file)) <> None ->
      stale_html e old_manifest theme md_file = true ->
      exists st',
        process_md e old_manifest theme st md_file = Some st'
        /\ calls st' = calls st ++ [c]
        /\ parsed_posts st' = parsed_posts st
  end.
Proof.
  intros Hmiss. apply has_required_fields_false in Hmiss.
  unfold special_call, process_md.
  fold (stale_html e old_manifest theme md_file).
  destruct (is_404_page e md_file) eqn:E404.
  { intros Ht ->. unfold build_special, metadata_of. simpl.
    destruct (meta_title _) as [t|]; [|done]. simpl. eauto. }
  destruct (is_hidden e md_file) eqn:Ehid; simpl.
  - destruct (is_about_page e md_file) eqn:Eab; simpl.
    + intros Ht ->. unfold build_special, metadata_of. simpl.
      destruct (meta_title _) as [t|]; [|done]. simpl. eauto.
    + eexists. split; [done|]. by repeat split.
  - rewrite Hmiss. simpl. eexists. split; [done|]. by repeat split.
Qed.

(** With the parser of this repository the check only ever fires for a
    file that could not be read: normalisation sets both fields. *)
Lemma normalize_has_required_fields l path fm content m :
  Parser.normalize l path fm content = Some m -> has_required_fields m = true.
Proof.
  unfold Parser.normalize. intros H.
  destruct (Parser.normalize_tags _ _); simpl in H; [|done].
  destruct (match Parser.fm_title fm with Some _ => _ | None => _ end);
    simpl in H; [|done].
  by injection H as <-.
Qed.

Lemma parsed_missing_field_unreadable l path src m html :
  Parser.get_metadata_and_content l path src = Some (m, html) ->
  has_required_fields m = false -> src = Parser.Unreadable.
Proof.
  destruct src as [|fm content]; [done|]. simpl.
  destruct (Parser.normalize l path fm content) as [m'|] eqn:E; simpl; [|done].
  intros [= <- _] Hm. apply normalize_has_required_fields in E. congruence.
Qed.

(** ** First build *)


Lemma needs_full_build_no_entry current_hash :
  needs_full_build current_hash [] = true.
Proof. done. Qed.



(** The difference shows: with no theme file on disk, a run from the empty
    dict rebuilds the list pages, a run from three empty buckets does not. *)
Example three_empty_buckets_is_not_no_history :
  let e := Demo.mk_env [] [Demo.doc_a] in
  (lists_rebuilt <$> build_site e Missing []) = Some true
  /\ (lists_rebuilt <$> build_site e (Stored initial_manifest) []) = Some false.
Proof. vm_compute. split; reflexivity. Qed.


(** ** Two runs in a row *)

(** The dependency hashes a run records do not depend on the old manifest. *)
Lemma check_core_fold_snd e old old' deps : forall acc acc',
  snd acc = snd acc' ->
  snd (fold_left (check_core e old) deps acc)
  = snd (fold_left (check_core e old') deps acc').
Proof.
  induction deps as [|d deps IH]; intros acc acc' Heq; simpl; [done|].
  apply IH. unfold check_core. destruct (path_exists e d); simpl; [|done].
  by rewrite Heq.
Qed.

Lemma check_theme_snd e old old' : snd (check_theme e old) = snd (check_theme e old').
Proof.
  unfold check_theme. apply check_core_fold_snd.
  by destruct (path_exists e css_source), (path_exists e base_template_source).
Qed.






Lemma check_core_fold_false e old deps : forall acc,
  fst acc = false ->
  (forall d, d ∈ deps -> path_exists e d = true ->
     dependency_changed e d (bucket (m_templates old)) = false) ->
  fst (fold_left (check_core e old) deps acc) = false.
Proof.
  induction deps as [|d deps IH]; intros acc Hacc Hd; simpl; [done|].
  apply IH.
  - unfold check_core. destruct (path_exists e d) eqn:Hex; [|done]. simpl.
    rewrite Hacc. simpl. apply Hd; [by apply elem_of_cons; left | done].
  - intros d' Hin. apply Hd. by apply elem_of_cons; right.
Qed.

(** No dependency differs from what the old manifest stores: no theme change. *)
Lemma check_theme_unchanged e old :
  (forall dep, dep ∈ theme_dependencies -> path_exists e dep = true ->
     stored_hash old dep = PStr (get_full_content_hash e dep)) ->
  fst (check_theme e old) = false.
Proof.
  intros H. unfold check_theme. apply check_core_fold_false.
  - assert (Hcss : path_exists e css_source = true ->
              dependency_changed e css_source (bucket (m_static_files old)) = false).
    { intros Hex. unfold dependency_changed. apply py_ne_false.
      symmetry. apply (H css_source); [|done]. set_solver. }
    assert (Hbase : path_exists e base_template_source = true ->
              dependency_changed e base_template_source (bucket (m_templates old)) = false).
    { intros Hex. unfold dependency_changed. apply py_ne_false.
      symmetry. apply (H base_template_source); [|done].
      unfold theme_dependencies. set_solver. }
    destruct (path_exists e css_source), (path_exists e base_template_source);
      simpl; rewrite ?Hcss, ?Hbase; done.
  - intros d Hin Hex. unfold dependency_changed. apply py_ne_false. symmetry.
    assert (Hd : String.eqb d css_source = false).
    { unfold CORE_DEPENDENCIES in Hin.
      repeat (apply elem_of_cons in Hin as [->|Hin]; [reflexivity|]).
      by apply elem_of_nil in Hin. }
    pose proof (H d) as Hd'. unfold stored_hash in Hd'. rewrite Hd in Hd'.
    apply Hd'; [|done]. unfold theme_dependencies. set_solver.
Qed.



(** *** The posts bucket after the loop *)




Lemma manifest_step_posts_some e m f :
  is_Some (m_posts m) -> is_Some (m_posts (manifest_step e m f)).
Proof. unfold manifest_step. destruct (entry_of e f); [by eexists | done]. Qed.

Lemma manifest_fold_posts_some e files : forall m,
  is_Some (m_posts m) -> is_Some (m_posts (fold_left (manifest_step e) files m)).
Proof.
  induction files as [|f files IH]; intros m Hm; simpl; [done|].
  by apply IH, manifest_step_posts_some.
Qed.

(** *** A document whose entry is already in the old manifest *)









(** *** Reconciliation when nothing recorded is missing *)

Lemma pop_post_entry_absent m p :
  is_Some (m_posts m) -> p ∉ Dict.keys (bucket (m_posts m)) ->
  pop_post_entry p m = m.
Proof.
  intros [d Hd] Hp. destruct m as [mp ms mt]. simpl in *. subst mp.
  unfold pop_post_entry. simpl in *. f_equal. f_equal.
  by apply DictFacts.pop_absent, DictFacts.lookup_None_keys.
Qed.

Lemma reconcile_all_keeps_manifest old paths : forall st st',
  reconcile_all old paths st = Some st' ->
  is_Some (m_posts (new_manifest st)) ->
  (forall p, p ∈ paths -> p ∉ Dict.keys (bucket (m_posts (new_manifest st)))) ->
  new_manifest st' = new_manifest st.
Proof.
  induction paths as [|p paths IH]; intros st st'; simpl.
  - by intros [= <-].
  - destruct (reconcile_one old st p) as [st1|] eqn:H1; simpl; [|done].
    intros H2 Hsome Hp.
    assert (E : new_manifest st1 = new_manifest st).
    { apply reconcile_one_spec in H1 as (_ & _ & _ & _ & _ & _ & _ & _ & [E|E]); [done|].
      rewrite E. apply pop_post_entry_absent; [done|].
      apply Hp. by apply elem_of_cons; left. }
    rewrite <- E. apply IH; [done | by rewrite E |].
    intros p' Hp'. rewrite E. apply Hp. by apply elem_of_cons; right.
Qed.

Lemma manifest_of_keys e k :
  k ∈ Dict.keys (bucket (m_posts (manifest_of e))) ->
  k ∈ map (relative_path e) (md_files e).
Proof.
  intros Hk. apply manifest_fold_keys in Hk as [Hk|Hk]; [done|].
  rewrite check_theme_posts in Hk. by apply elem_of_nil in Hk.
Qed.

Lemma manifest_of_posts_some e : is_Some (m_posts (manifest_of e)).
Proof. apply manifest_fold_posts_some. rewrite check_theme_posts. by eexists. Qed.

(** The saved manifest is a function of the source tree alone. *)
Lemma saved_manifest_of e mf fs r :
  build_site e mf fs = Some r -> saved r = Stored (manifest_of e).
Proof.
  intros Hb. apply build_site_inv in Hb as (fs0 & st1 & st2 & _ & H1 & H2 & ->).
  cbv zeta in *.
  destruct (generate_html_spec e (load_manifest mf)
              (fst (check_theme e (load_manifest mf))) st2)
    as (_ & _ & _ & _ & -> & _).
  f_equal.
  apply process_all_spec in H1 as (Hs1 & Hm1 & _). simpl in Hm1.
  rewrite (check_theme_snd e _ empty_dict_manifest) in Hm1. fold (manifest_of e) in Hm1.
  rewrite <- Hm1. apply (reconcile_all_keeps_manifest _ _ _ _ H2).
  - rewrite Hm1. apply manifest_of_posts_some.
  - intros p Hp Hk. rewrite Hm1 in Hk. apply manifest_of_keys in Hk.
    apply elem_of_elements in Hp. unfold deleted_paths in Hp.
    rewrite Hs1 in Hp. simpl in Hp. set_solver.
Qed.




(** ** Strings: where a written page lands *)

Module StrFacts.

Lemma app_cons a s t : String a s +:+ t = String a (s +:+ t).
Proof. reflexivity. Qed.

Lemma app_nil_r s : s +:+ "" = s.
Proof. induction s as [|a s IH]; [done|]. by rewrite app_cons, IH. Qed.

Lemma app_assoc s t u : (s +:+ t) +:+ u = s +:+ (t +:+ u).
Proof. induction s as [|a s IH]; [done|]. by rewrite !app_cons, IH. Qed.

Lemma length_app s t : String.length (s +:+ t) = String.length s + String.length t.
Proof. induction s as [|a s IH]; [done|]. rewrite app_cons. simpl. by rewrite IH. Qed.

Lemma rev_app_spec s : forall t, String.rev_app s t = String.rev s +:+ t.
Proof.
  unfold String.rev. induction s as [|a s IH]; intros t; simpl; [done|].
  rewrite (IH (String a t)), (IH (String a "")). by rewrite app_assoc.
Qed.

Lemma rev_cons a s : String.rev (String a s) = String.rev s +:+ String a "".
Proof. unfold String.rev at 1. simpl. apply rev_app_spec. Qed.

Lemma split_go_free c b : forall cur,
  Str.free_of c b = true -> Str.split_go c cur b = [String.rev cur +:+ b].
Proof.
  induction b as [|a b IH]; intros cur Hb; simpl in *.
  - by rewrite app_nil_r.
  - apply andb_true_iff in Hb as [Ha Hb]. apply negb_true_iff in Ha.
    rewrite Ha, IH by done. by rewrite rev_cons, app_assoc.
Qed.

(** Splitting [x ++ b] for a [b] without separator: the last piece ends
    with [b]. *)
Lemma split_go_app c b x : forall cur,
  Str.free_of c b = true ->
  exists pre y, Str.split_go c cur (x +:+ b) = pre ++ [y +:+ b].
Proof.
  induction x as [|a x IH]; intros cur Hb.
  - exists [], (String.rev cur). by apply split_go_free.
  - rewrite app_cons. simpl. destruct (Ascii.eqb a c).
    + destruct (IH EmptyString Hb) as (pre & y & ->).
      by exists (String.rev cur :: pre), y.
    + apply IH, Hb.
Qed.

End StrFacts.

Lemma to_path_index x : ends_index (FS.to_path (x +:+ "index.html")).
Proof.
  unfold FS.to_path, Str.split.
  destruct (StrFacts.split_go_app "/"%char "index.html" x EmptyString eq_refl)
    as (pre & y & ->).
  rewrite filter_app. exists (filter (fun c => c <> "") pre), y. f_equal.
  rewrite filter_cons_True; [done|].
  intros E. apply (f_equal String.length) in E.
  rewrite StrFacts.length_app in E. simpl in E. lia.
Qed.

(** [os.path.join(output_dir, 'index.html')] *)
Lemma join_index_ends d : ends_index (FS.to_path (Path.join d ["index.html"])).
Proof.
  unfold Path.join, Path.join2. simpl.
  destruct (_ || _).
  - apply to_path_index.
  - replace (d +:+ "/" +:+ "index.html") with ((d +:+ "/") +:+ "index.html")
      by apply StrFacts.app_assoc.
    apply to_path_index.
Qed.

Lemma ends_index_last p :
  ends_index p -> exists z, last p = Some z /\ 10 <= String.length z.
Proof.
  intros (pre & y & ->). exists (y +:+ "index.html"). split; [apply last_snoc|].
  rewrite StrFacts.length_app. simpl. lia.
Qed.

(** ** The output tree: directories that stay directories *)

Module FSFacts.
Import FS.

Lemma find_nil p : find p [] = None.
Proof. done. Qed.

Lemma find_cons p q n fs :
  find p ((q, n) :: fs) = if decide (q = p) then Some n else find p fs.
Proof.
  unfold find. simpl. destruct (decide (q = p)) as [->|Hne].
  - by rewrite bool_decide_eq_true_2.
  - by rewrite bool_decide_eq_false_2.
Qed.

Lemma find_app p fs q n :
  find p (fs ++ [(q, n)]) =
  match find p fs with
  | Some x => Some x
  | None => if decide (q = p) then Some n else None
  end.
Proof.
  induction fs as [|[q' n'] fs IH]; simpl.
  - rewrite find_cons. by destruct (decide (q = p)).
  - rewrite !find_cons. by destruct (decide (q' = p)).
Qed.

(** Filtering on the key keeps or drops all entries of a key together. *)
Lemma find_filter_key (g : path -> bool) p fs :
  find p (List.filter (fun e => g (fst e)) fs) = if g p then find p fs else None.
Proof.
  induction fs as [|[q n] fs IH]; simpl.
  - by destruct (g p).
  - destruct (g q) eqn:Hq.
    + rewrite !find_cons, IH. destruct (decide (q = p)) as [->|Hne]; [|done].
      by rewrite Hq.
    + rewrite IH, find_cons. destruct (decide (q = p)) as [->|Hne]; [|done].
      by rewrite Hq.
Qed.

Lemma find_replace p q c fs :
  find p (map (fun e => if bool_decide (fst e = q) then (fst e, File c) else e) fs) =
  if decide (p = q)
  then match find p fs with Some _ => Some (File c) | None => None end
  else find p fs.
Proof.
  induction fs as [|[q' n'] fs IH]; simpl.
  - by destruct (decide (p = q)).
  - destruct (decide (q' = q)) as [->|Hne].
    + rewrite bool_decide_eq_true_2 by done. simpl. rewrite !find_cons, IH.
      destruct (decide (q = p)) as [->|Hne]; [by rewrite decide_True|].
      destruct (decide (p = q)); [congruence | done].
    + rewrite bool_decide_eq_false_2 by done. rewrite !find_cons, IH.
      destruct (decide (q' = p)) as [->|Hne']; [by rewrite decide_False|done].
Qed.

(** What can be at [p] after an operation, given what was there. *)
Lemma find_rmtree p s fs :
  find p (rmtree s fs) = None \/ find p (rmtree s fs) = find p fs.
Proof.
  unfold rmtree.
  rewrite (find_filter_key (fun q => negb (is_prefix (to_path s) q))).
  destruct (negb _); auto.
Qed.

Lemma find_remove p s fs :
  find p (remove s fs) = None \/ find p (remove s fs) = find p fs.
Proof.
  unfold remove. destruct (find (to_path s) fs) as [[|c]|]; auto.
  pose proof (find_filter_key (fun q => negb (bool_decide (q = to_path s))) p fs) as H.
  cbv beta in H. rewrite H. destruct (negb _); auto.
Qed.

Lemma find_mkdir p q fs :
  find p (mkdir q fs) = find p fs
  \/ (find p fs = None /\ find p (mkdir q fs) = Some Dir).
Proof.
  unfold mkdir. destruct (find q fs) eqn:Hq; [auto|].
  rewrite find_app. destruct (find p fs); [auto|].
  destruct (decide (q = p)); auto.
Qed.

Lemma find_mkdir_self q fs :
  (forall c, find q fs <> Some (File c)) -> find q (mkdir q fs) = Some Dir.
Proof.
  intros Hq. unfold mkdir. destruct (find q fs) as [[|c]|] eqn:E.
  - done.
  - by destruct (Hq c).
  - rewrite find_app, E. by rewrite decide_True.
Qed.

Lemma find_write p s c fs :
  p <> to_path s -> find p (write s c fs) = find p fs.
Proof.
  intros Hne. unfold write. destruct (find (to_path s) fs) as [[|c']|] eqn:E.
  - done.
  - rewrite find_replace. by rewrite decide_False.
  - rewrite find_app. destruct (find p fs); [done|]. by rewrite decide_False.
Qed.

End FSFacts.

Lemma prepared_not_index p : p ∈ prepared -> ~ ends_index p.
Proof.
  intros Hp Hidx. apply ends_index_last in Hidx as (z & Hz & Hlen).
  vm_compute in Hp.
  repeat (apply elem_of_cons in Hp as [->|Hp];
          [simpl in Hz; injection Hz as <-; simpl in Hlen; lia|]).
  by apply elem_of_nil in Hp.
Qed.

Lemma safe_rmtree s fs : safe fs -> safe (FS.rmtree s fs).
Proof.
  intros H p c Hp. destruct (FSFacts.find_rmtree p s fs) as [-> | ->]; [done|].
  by apply H.
Qed.

Lemma safe_remove s fs : safe fs -> safe (FS.remove s fs).
Proof.
  intros H p c Hp. destruct (FSFacts.find_remove p s fs) as [-> | ->]; [done|].
  by apply H.
Qed.

Lemma safe_mkdir q fs : safe fs -> safe (FS.mkdir q fs).
Proof.
  intros H p c Hp. destruct (FSFacts.find_mkdir p q fs) as [-> | [_ ->]]; [|done].
  by apply H.
Qed.

Lemma safe_makedirs_fold ps : forall acc,
  safe (fst acc) -> safe (fst (fold_left FS.makedirs_step ps acc)).
Proof.
  induction ps as [|p ps IH]; intros acc Hacc; simpl; [done|].
  apply IH. unfold FS.makedirs_step. destruct (snd acc); [|done].
  destruct (FS.find p (fst acc)) as [[|c]|]; simpl; auto using safe_mkdir.
Qed.

Lemma safe_makedirs s fs : safe fs -> safe (fst (FS.makedirs s fs)).
Proof. intros Hs. by apply safe_makedirs_fold. Qed.

Lemma safe_write s c fs : ends_index (FS.to_path s) -> safe fs -> safe (FS.write s c fs).
Proof.
  intros Hidx H p c' Hp. rewrite FSFacts.find_write; [by apply H|].
  intros ->. by apply (prepared_not_index _ Hp).
Qed.

Lemma safe_generate_post_page e p fs : safe fs -> safe (generate_post_page e p fs).
Proof.
  intros H. unfold generate_post_page.
  destruct (post_link p) as [l|]; [|done].
  destruct (String.eqb l ""); [done|].
  destruct (String.eqb (Str.lower l) "404.html"); [done|].
  match goal with |- context [FS.makedirs ?d fs] =>
    pose proof (safe_makedirs d fs H) as Hm; destruct (FS.makedirs d fs) as [fs1 ok]
  end.
  simpl in Hm. destruct ok; [|done].
  destruct (render e _); [|done].
  apply safe_write; [apply join_index_ends | done].
Qed.

Lemma safe_generate_page_html e content title page_id link fs :
  safe fs -> safe (generate_page_html e content title page_id link fs).
Proof.
  intros H. unfold generate_page_html.
  match goal with |- context [FS.makedirs ?d fs] =>
    pose proof (safe_makedirs d fs H) as Hm; destruct (FS.makedirs d fs) as [fs1 ok]
  end.
  simpl in Hm. destruct ok; [|done].
  destruct (render e _); [|done].
  apply safe_write; [apply join_index_ends | done].
Qed.

Lemma safe_cleanup_renamed old_link post_link fs fs' :
  cleanup_renamed old_link post_link fs = Some fs' -> safe fs -> safe fs'.
Proof.
  unfold cleanup_renamed. destruct (_ && _); [|by intros [= <-]].
  destruct old_link; try done. intros [= <-] H.
  repeat case_match; auto using safe_rmtree, safe_remove.
Qed.

Lemma safe_cleanup_deleted link fs : safe fs -> safe (cleanup_deleted link fs).
Proof.
  intros H. unfold cleanup_deleted.
  repeat case_match; auto using safe_rmtree, safe_remove.
Qed.

Lemma safe_build_special e needs_html m content page_id link st st' :
  build_special e needs_html m content page_id link st = Some st' ->
  safe (out st) -> safe (out st').
Proof.
  unfold build_special. destruct needs_html; [|by intros [= <-]].
  destruct (meta_title m); [|done]. intros [= <-] H. simpl.
  by apply safe_generate_page_html.
Qed.

Lemma safe_process_md e old theme st f st' :
  process_md e old theme st f = Some st' -> safe (out st) -> safe (out st').
Proof.
  unfold process_md. intros H Hs.
  destruct (is_404_page e f).
  { destruct (build_special _ _ _ _ _ _ _) as [st1|] eqn:Hb; simpl in H; [|done].
    injection H as <-. simpl. by apply (safe_build_special _ _ _ _ _ _ _ _ Hb). }
  destruct (is_hidden e f).
  { destruct (is_about_page e f).
    - destruct (build_special _ _ _ _ _ _ _) as [st1|] eqn:Hb; simpl in H; [|done].
      injection H as <-. simpl. by apply (safe_build_special _ _ _ _ _ _ _ _ Hb).
    - simpl in H. by injection H as <-. }
  destruct (negb _); [by injection H as <-|].
  destruct (cleanup_renamed _ _ _) as [fs1|] eqn:Hc; simpl in H; [|done].
  injection H as <-.
  assert (safe fs1).
  { apply (safe_cleanup_renamed _ _ _ _ Hc). by repeat case_match. }
  destruct (needs_rebuild_html _ _ _); exact H.
Qed.

Lemma safe_process_all e old theme files : forall st st',
  process_all e old theme files st = Some st' -> safe (out st) -> safe (out st').
Proof.
  induction files as [|f files IH]; intros st st'; simpl; [by intros [= <-]|].
  destruct (process_md e old theme st f) as [st1|] eqn:H1; simpl; [|done].
  intros H2 Hs. apply (IH _ _ H2). by apply (safe_process_md _ _ _ _ _ _ H1).
Qed.

Lemma safe_reconcile_all old paths : forall st st',
  reconcile_all old paths st = Some st' -> safe (out st) -> safe (out st').
Proof.
  induction paths as [|p paths IH]; intros st st'; simpl; [by intros [= <-]|].
  destruct (reconcile_one old st p) as [st1|] eqn:H1; simpl; [|done].
  intros H2 Hs. apply (IH _ _ H2).
  unfold reconcile_one in H1. destruct (cleanable _).
  - destruct (Dict.get _ _); try done. injection H1 as <-. simpl.
    by apply safe_cleanup_deleted.
  - by injection H1 as <-.
Qed.

Lemma safe_build_post_pages e posts : forall st,
  safe (out st) -> safe (out (build_post_pages e posts st)).
Proof.
  unfold build_post_pages.
  induction posts as [|p posts IH]; intros st Hs; simpl; [done|].
  apply IH. simpl. by apply safe_generate_post_page.
Qed.

Lemma safe_generate_html e old theme st :
  safe (out st) -> safe (out (final (generate_html e old theme st))).
Proof.
  intros Hs. unfold generate_html. simpl.
  case_match; simpl; by apply safe_build_post_pages.
Qed.

(** *** Preparing the output directories *)

Lemma makedirs_fold_stuck ps : forall fs,
  fold_left FS.makedirs_step ps (fs, false) = (fs, false).
Proof. induction ps as [|p ps IH]; intros fs; simpl; [done | apply IH]. Qed.

Lemma makedirs_fold_true ps : forall fs fs',
  fold_left FS.makedirs_step ps (fs, true) = (fs', true) ->
  (forall q, FS.find q fs = Some FS.Dir -> FS.find q fs' = Some FS.Dir)
  /\ (forall p, p ∈ ps -> FS.find p fs' = Some FS.Dir).
Proof.
  induction ps as [|p ps IH]; intros fs fs'; simpl.
  - intros [= <-]. split; [done|]. intros p Hp. by apply elem_of_nil in Hp.
  - unfold FS.makedirs_step at 2. simpl.
    assert (Hkeep : forall q, FS.find q fs = Some FS.Dir ->
                      FS.find q (FS.mkdir p fs) = Some FS.Dir).
    { intros q Hq. destruct (FSFacts.find_mkdir q p fs) as [-> | [E _]]; congruence. }
    destruct (FS.find p fs) as [[|c]|] eqn:Hp.
    + intros H. apply IH in H as [H1 H2]. split; [by auto|].
      intros p' Hin. apply elem_of_cons in Hin as [->|Hin]; [|by auto].
      apply H1, FSFacts.find_mkdir_self. intros c. congruence.
    + rewrite makedirs_fold_stuck. done.
    + intros H. apply IH in H as [H1 H2]. split; [by auto|].
      intros p' Hin. apply elem_of_cons in Hin as [->|Hin]; [|by auto].
      apply H1, FSFacts.find_mkdir_self. intros c. congruence.
Qed.

Lemma makedirs_fold_safe ps : forall fs,
  (forall p, p ∈ ps -> p ∈ prepared) -> safe fs ->
  snd (fold_left FS.makedirs_step ps (fs, true)) = true.
Proof.
  induction ps as [|p ps IH]; intros fs Hps Hs; simpl; [done|].
  unfold FS.makedirs_step at 2. simpl.
  assert (Hp : p ∈ prepared) by (apply Hps; by apply elem_of_cons; left).
  destruct (FS.find p fs) as [[|c]|] eqn:E.
  - apply IH; [|by apply safe_mkdir]. intros p' Hp'. apply Hps. by apply elem_of_cons; right.
  - by destruct (Hs p c Hp).
  - apply IH; [|by apply safe_mkdir]. intros p' Hp'. apply Hps. by apply elem_of_cons; right.
Qed.

Lemma prepare_fold_stuck dirs : fold_left prepare_step dirs None = None.
Proof. induction dirs as [|d dirs IH]; simpl; [done | apply IH]. Qed.

Lemma prepare_fold_dirs dirs : forall fs fs0,
  fold_left prepare_step dirs (Some fs) = Some fs0 ->
  (forall q, FS.find q fs = Some FS.Dir -> FS.find q fs0 = Some FS.Dir)
  /\ (forall d p, d ∈ dirs -> p ∈ FS.prefixes [] (FS.to_path d) ->
        FS.find p fs0 = Some FS.Dir).
Proof.
  induction dirs as [|d dirs IH]; intros fs fs0; simpl.
  - intros [= <-]. split; [done|]. intros d p Hd. by apply elem_of_nil in Hd.
  - destruct (FS.makedirs d fs) as [fs1 ok] eqn:Hm. simpl.
    destruct ok; [|by rewrite prepare_fold_stuck].
    intros H. apply IH in H as [H1 H2].
    apply makedirs_fold_true in Hm as [Hk Hd].
    split; [by auto|].
    intros d' p Hin Hp. apply elem_of_cons in Hin as [->|Hin]; [|by eauto].
    by apply H1, Hd.
Qed.

Lemma prepare_dirs_safe fs fs0 : prepare_dirs fs = Some fs0 -> safe fs0.
Proof.
  intros H. apply (prepare_fold_dirs prepared_dirs) in H as [_ H].
  intros p c Hp. unfold prepared in Hp.
  apply list_elem_of_In, in_flat_map in Hp as (d & Hd & Hp).
  rewrite (H d p); [done | by apply list_elem_of_In | by apply list_elem_of_In].
Qed.

Lemma prepare_fold_safe dirs : forall fs,
  (forall d, d ∈ dirs -> d ∈ prepared_dirs) -> safe fs ->
  is_Some (fold_left prepare_step dirs (Some fs)).
Proof.
  induction dirs as [|d dirs IH]; intros fs Hd Hs; simpl; [by eexists|].
  pose proof (makedirs_fold_safe (FS.prefixes [] (FS.to_path d)) fs) as Hok.
  pose proof (safe_makedirs d fs Hs) as Hs'.
  unfold FS.makedirs in *. 
  rewrite Hok; [|  | done].
  - apply IH; [|done]. intros d' Hd'. apply Hd. by apply elem_of_cons; right.
  - intros p Hp. unfold prepared. apply list_elem_of_In, in_flat_map.
    exists d. split; apply list_elem_of_In; [|done].
    apply Hd. by apply elem_of_cons; left.
Qed.

Lemma prepare_dirs_succeeds fs : safe fs -> is_Some (prepare_dirs fs).
Proof. intros Hs. by apply (prepare_fold_safe prepared_dirs). Qed.

(** The output tree a completed run leaves can be prepared again. *)
Lemma build_site_leaves_safe e mf fs r :
  build_site e mf fs = Some r -> safe (out (final r)).
Proof.
  intros Hb. apply build_site_inv in Hb as (fs0 & st1 & st2 & H0 & H1 & H2 & ->).
  cbv zeta in *. apply safe_generate_html.
  apply (safe_reconcile_all _ _ _ _ H2), (safe_process_all _ _ _ _ _ _ H1).
  simpl. by apply (prepare_dirs_safe fs).
Qed.


(** ** Runs on the concrete world *)

(** A document that needs a full build (new, or with other bytes) never
    raises the list-page flag, whatever its metadata: both assignments are
    guarded by [not needs_full_build]. *)
Lemma full_build_keeps_list_flag e old theme st f st' :
  needs_full_build (get_full_content_hash e f) (old_item_of old (relative_path e f))
  = true ->
  process_md e old theme st f = Some st' ->
  posts_data_changed st' = posts_data_changed st.
Proof.
  unfold process_md. intros Hfull H. rewrite Hfull in H.
  destruct (is_404_page e f).
  { destruct (build_special _ _ _ _ _ _ _) as [st1|] eqn:Hb; simpl in H; [|done].
    injection H as <-. by apply build_special_spec in Hb as (_ & _ & Hd & _). }
  destruct (is_hidden e f).
  { destruct (is_about_page e f).
    - destruct (build_special _ _ _ _ _ _ _) as [st1|] eqn:Hb; simpl in H; [|done].
      injection H as <-. by apply build_special_spec in Hb as (_ & _ & Hd & _).
    - simpl in H. by injection H as <-. }
  destruct (negb _); [by injection H as <-|].
  rewrite !andb_false_r in H.
  destruct (cleanup_renamed _ _ _) as [fs1|]; simpl in H; [|done].
  injection H as <-. by destruct (needs_rebuild_html _ _ _).
Qed.

(** C3 on the code: a first build of [a.md], then a build after [b.md] was
    added. The second build starts from a non-empty manifest without an
    entry for [b.md], records [b.md], renders its page, and rebuilds no
    list page. *)
Theorem added_document_lists_not_rebuilt :
  (r1 ← build_site (Demo.mk_env Demo.theme1 [Demo.doc_a]) Missing [];
   r2 ← rebuild (Demo.mk_env Demo.theme1 [Demo.doc_a; Demo.doc_b]) r1;
   Some (manifest_truthy (load_manifest (saved r1)),
         Dict.mem "markdown/b.md" (bucket (m_posts (load_manifest (saved r1)))),
         Dict.mem "markdown/b.md" (bucket (m_posts (load_manifest (saved r2)))),
         map post_link (posts_to_build_all r2),
         theme_changed r2, posts_data_changed (final r2),
         lists_rebuilt r2, aggregate_calls_of r2))
  = Some (true, false, true, [Some "posts/b.html"], false, false, false, []).
Proof. vm_compute. reflexivity. Qed.

(** C6 on the code: a first build of [a.md] writes
    [_site/posts/a/index.html]; after [a.md] is deleted the next build drops
    the entry and rebuilds the lists, but looks for the old output at
    [_site/posts/a.html] and leaves the page directory in place. *)
Theorem deleted_document_output_remains :
  (r1 ← build_site (Demo.mk_env Demo.theme1 [Demo.doc_a]) Missing [];
   r2 ← rebuild (Demo.mk_env Demo.theme1 []) r1;
   Some (Dict.get "link" (old_item_of (load_manifest (saved r1)) "markdown/a.md"),
         cleanup_target "posts/a.html",
         Dict.mem "markdown/a.md" (bucket (m_posts (load_manifest (saved r2)))),
         lists_rebuilt r2,
         FS.isdir "_site/posts/a" (out (final r2)),
         FS.exists_ "_site/posts/a/index.html" (out (final r2))))
  = Some (PStr "posts/a.html", "_site/posts/a.html", false, true, true, true).
Proof. vm_compute. reflexivity. Qed.

(** C7 on the code: after the slug of [a.md] changes from [a] to [renamed],
    the next build records the new link and writes the new page, and the
    page at the old link is still there. *)
Theorem renamed_document_output_remains :
  (r1 ← build_site (Demo.mk_env Demo.theme1 [Demo.doc_a]) Missing [];
   r2 ← rebuild (Demo.mk_env Demo.theme1 [doc_a_renamed]) r1;
   Some (Dict.get "link" (old_item_of (load_manifest (saved r1)) "markdown/a.md"),
         Dict.get "link" (old_item_of (load_manifest (saved r2)) "markdown/a.md"),
         FS.exists_ "_site/posts/renamed/index.html" (out (final r2)),
         FS.isdir "_site/posts/a" (out (final r2)),
         FS.exists_ "_site/posts/a/index.html" (out (final r2))))
  = Some (PStr "posts/a.html", PStr "posts/renamed.html", true, true, true).
Proof. vm_compute. reflexivity. Qed.

(** ** The theorems at concrete inputs *)

Lemma needs_full_build_iff_witness :
  Dict.get "hash" (old_item_of stale_manifest "markdown/a.md") = PStr "old"
  /\ needs_full_build "ha" (old_item_of stale_manifest "markdown/a.md") = true.
Proof.
  split; [reflexivity|].
  apply (proj2 (needs_full_build_iff demo_env stale_manifest "markdown/a.md") "old");
    [reflexivity | discriminate].
Defined.

Lemma generate_post_page_no_link_witness :
  generate_post_page demo_env
    {| post_metadata := empty_metadata; post_content_html := "";
       post_link := Some "404.HTML" |} [] = [].
Proof.
  apply generate_post_page_no_link. right; right.
  exists "404.HTML". split; reflexivity.
Defined.


Lemma saved_posts_within_sources_witness :
  match build_site demo_env (Stored stale_manifest) [] with
  | Some r => exists m, saved r = Stored m
                /\ forall k, k ∈ Dict.keys (bucket (m_posts m)) ->
                     k ∈ source_md_paths (final r)
  | None => False
  end.
Proof.
  destruct (build_site demo_env (Stored stale_manifest) []) as [r|] eqn:H.
  - destruct (saved_posts_within_sources demo_env _ _ r H) as (m & A & _ & B & _).
    by exists m.
  - vm_compute in H. discriminate.
Defined.

Lemma incomplete_document_excluded_witness :
  let e := Demo.mk_env Demo.theme1 [doc_unreadable] in
  let st := initial_state initial_manifest [] in
  meta_title (fst (get_metadata_and_content e "markdown/broken.md")) = None
  /\ exists st',
       process_md e empty_dict_manifest true st "markdown/broken.md" = Some st'
       /\ parsed_posts st' = [] /\ posts_to_build st' = [] /\ calls st' = [].
Proof.
  intros e st. split; [reflexivity|].
  pose proof (incomplete_document_excluded e empty_dict_manifest true st
                "markdown/broken.md" (or_intror eq_refl)) as H.
  change (special_call e "markdown/broken.md") with (@None event) in H.
  destruct H as (st' & H1 & H2 & H3 & _ & H4 & _).
  exists st'. by repeat split.
Defined.



(** * Further properties of the code *)

(** ** The theme check *)

(** X1. A run that completes has [theme_changed] exactly when some member
    of the theme dependency set is on disk with a hash other than the one
    the old manifest stores for it; a dependency that is not on disk never
    counts. *)
Theorem theme_changed_iff (e : env) (mf : manifest_file) (fs : FS.t) (r : build_result) :
  build_site e mf fs = Some r ->
  (theme_changed r = true
   <-> exists dep, dep ∈ theme_dependencies
         /\ path_exists e dep = true
         /\ PStr (get_full_content_hash e dep) <> stored_hash (load_manifest mf) dep).
Proof.
  intros Hb. apply build_site_inv in Hb as (fs0 & st1 & st2 & _ & _ & _ & ->).
  cbv zeta.
  destruct (generate_html_spec e (load_manifest mf)
              (fst (check_theme e (load_manifest mf))) st2) as (-> & _).
  split.
  - intros Hth.
    destruct (existsb (fun dep => path_exists e dep
                && py_ne (PStr (get_full_content_hash e dep))
                     (stored_hash (load_manifest mf) dep)) theme_dependencies) eqn:Hex.
    + apply existsb_exists in Hex as (dep & Hin & Hdep).
      apply andb_true_iff in Hdep as [H1 H2]. apply py_ne_true in H2.
      exists dep. by rewrite list_elem_of_In.
    + rewrite check_theme_unchanged in Hth; [done|].
      intros dep Hin Hdep. symmetry. apply py_ne_false.
      apply list_elem_of_In in Hin.
      destruct (py_ne _ _) eqn:Hne; [|done].
      assert (existsb (fun dep => path_exists e dep
                && py_ne (PStr (get_full_content_hash e dep))
                     (stored_hash (load_manifest mf) dep)) theme_dependencies = true);
        [|congruence].
      apply existsb_exists. exists dep. by rewrite Hdep, Hne.
  - intros (dep & Hin & Hex & Hne). by apply check_theme_changed with dep.
Qed.

(** ** The change aggregator *)

Lemma process_md_flag e old theme st f st' :
  process_md e old theme st f = Some st' ->
  posts_data_changed st' = posts_data_changed st || metadata_only_change e old f.
Proof.
  unfold process_md, metadata_only_change, is_normal. intros H.
  destruct (is_404_page e f).
  { destruct (build_special _ _ _ _ _ _ _) as [st1|] eqn:Hb; simpl in H; [|done].
    injection H as <-. apply build_special_spec in Hb as (_ & _ & Hd & _).
    simpl in *. by rewrite Hd, orb_false_r. }
  destruct (is_hidden e f).
  { destruct (is_about_page e f).
    - destruct (build_special _ _ _ _ _ _ _) as [st1|] eqn:Hb; simpl in H; [|done].
      injection H as <-. apply build_special_spec in Hb as (_ & _ & Hd & _).
      simpl in *. by rewrite Hd, orb_false_r.
    - simpl in H. injection H as <-. simpl. by rewrite orb_false_r. }
  destruct (has_required_fields _); simpl in *;
    [|injection H as <-; simpl; by rewrite orb_false_r].
  destruct (needs_full_build _ _), (metadata_changed _ _ _); simpl in *;
    (destruct (cleanup_renamed _ _ _) as [fs1|]; simpl in H; [|done]);
    injection H as <-; destruct (needs_rebuild_html _ _ _); simpl;
    by rewrite ?orb_false_r, ?orb_true_r.
Qed.

Lemma process_all_flag e old theme files : forall st st',
  process_all e old theme files st = Some st' ->
  posts_data_changed st' =
  posts_data_changed st || existsb (metadata_only_change e old) files.
Proof.
  induction files as [|f files IH]; intros st st'; simpl.
  - intros [= <-]. by rewrite orb_false_r.
  - destruct (process_md e old theme st f) as [st1|] eqn:H1; simpl; [|done].
    intros H2. apply IH in H2 as ->. apply process_md_flag in H1 as ->.
    by rewrite orb_assoc.
Qed.

(** X2. Without a theme change the post pages rebuilt are those of the
    normal documents that need a full build, in the order of the files, and
    no others: a document whose bytes are as recorded is not rendered. *)
Theorem pages_rebuilt_without_theme_change (e : env) (mf : manifest_file) (fs : FS.t)
    (r : build_result) :
  build_site e mf fs = Some r ->
  theme_changed r = false ->
  posts_to_build_all r
  = map (post_of e) (List.filter (needs_page e (load_manifest mf)) (md_files e))
  /\ List.filter is_page_call (calls (final r))
     = special_calls e (load_manifest mf) false (md_files e)
       ++ map GeneratePostPage (posts_to_build_all r).
Proof.
  intros Hb. apply build_site_inv in Hb as (fs0 & st1 & st2 & _ & H1 & H2 & ->).
  cbv zeta in *.
  destruct (generate_html_spec e (load_manifest mf)
              (fst (check_theme e (load_manifest mf))) st2)
    as (Ht & _ & Hall & _ & _ & _ & _ & Hc & _).
  rewrite Ht. intros Hth. rewrite Hth in *.
  apply process_all_spec in H1 as (_ & _ & _ & Hb & Hc1 & _).
  apply reconcile_all_spec in H2 as (_ & _ & Hb' & _ & Hc2 & _).
  rewrite Hc, Hall, Hc2, Hc1, Hb', Hb. simpl.
  assert (Hf : List.filter
            (fun f => is_normal e f && stale_html e (load_manifest mf) false f)
            (md_files e)
          = List.filter (needs_page e (load_manifest mf)) (md_files e)).
  { apply filter_ext. intros f. unfold stale_html, needs_rebuild_html, needs_page.
    by rewrite orb_false_r. }
  rewrite Hf. split; [done|].
  rewrite !List.filter_app.
  assert (Hsp : List.filter is_page_call
                  (special_calls e (load_manifest mf) false (md_files e))
                = special_calls e (load_manifest mf) false (md_files e)).
  { apply forallb_filter_id, forallb_forall. intros c Hc0.
    unfold special_calls in Hc0. apply in_flat_map in Hc0 as (f & _ & Hc0).
    unfold special_call in Hc0.
    repeat case_match; simplify_eq; simpl in Hc0; try done;
      destruct Hc0 as [<-|?]; done. }
  assert (Hpp : forall l, List.filter is_page_call (map GeneratePostPage l)
                          = map GeneratePostPage l).
  { intros l. apply forallb_filter_id, forallb_forall. intros c Hc0.
    apply in_map_iff in Hc0 as (p & <- & _). done. }
  rewrite Hsp, Hpp.
  assert (Hag : forall l tm, List.filter is_page_call (aggregate_calls l tm) = []).
  { intros l tm. unfold aggregate_calls. simpl. rewrite List.filter_app. simpl.
    rewrite app_nil_r. induction tm as [|kv tm IH]; [done|]. simpl. exact IH. }
  destruct (rebuild_lists _ _ _); rewrite ?Hag; simpl; by rewrite ?app_nil_r.
Qed.

(** X3. The list pages are rebuilt exactly when the old manifest is the
    empty dict, or the theme changed, or a key of the old manifest is no
    longer among the discovered documents, or some normal document kept its
    bytes and changed a listed field. *)
Theorem lists_rebuilt_iff (e : env) (mf : manifest_file) (fs : FS.t) (r : build_result) :
  build_site e mf fs = Some r ->
  (lists_rebuilt r = true
   <-> load_manifest mf = empty_dict_manifest
       \/ theme_changed r = true
       \/ (exists k, k ∈ Dict.keys (bucket (m_posts (load_manifest mf)))
                     /\ k ∉ map (relative_path e) (md_files e))
       \/ (exists f, f ∈ md_files e
                     /\ metadata_only_change e (load_manifest mf) f = true)).
Proof.
  intros Hb. apply build_site_inv in Hb as (fs0 & st1 & st2 & _ & H1 & H2 & ->).
  cbv zeta in *.
  destruct (generate_html_spec e (load_manifest mf)
              (fst (check_theme e (load_manifest mf))) st2)
    as (Ht & _ & _ & Hl & _).
  rewrite Ht, Hl. clear Ht Hl.
  pose proof (process_all_flag _ _ _ _ _ _ H1) as Hd1. simpl in Hd1.
  apply process_all_spec in H1 as (Hs1 & _).
  apply reconcile_all_spec in H2 as (_ & _ & _ & _ & _ & Hd2 & _).
  rewrite Hd2, Hd1. unfold rebuild_lists. simpl.
  assert (Hempty : negb (manifest_truthy (load_manifest mf)) = true
                   <-> load_manifest mf = empty_dict_manifest).
  { unfold manifest_truthy. destruct (load_manifest mf) as [[|] [|] [|]]; split; done. }
  assert (Hdel : negb (bool_decide
                   (elements (deleted_paths (load_manifest mf) (source_md_paths st1)) = []))
                 = true
                 <-> exists k, k ∈ Dict.keys (bucket (m_posts (load_manifest mf)))
                               /\ k ∉ map (relative_path e) (md_files e)).
  { rewrite negb_true_iff, bool_decide_eq_false, elements_empty_iff.
    unfold deleted_paths. rewrite Hs1. simpl. split.
    - intros Hne.
      destruct (set_choose_or_empty
                  (list_to_set (Dict.keys (bucket (m_posts (load_manifest mf))))
                   ∖ (list_to_set (map (relative_path e) (md_files e)) ∪ ∅)
                   : gset string)) as [[k Hk]|He]; [|done].
      exists k. set_solver.
    - intros (k & Hk & Hn) He. set_solver. }
  assert (Hmeta : existsb (metadata_only_change e (load_manifest mf)) (md_files e) = true
                  <-> exists f, f ∈ md_files e
                        /\ metadata_only_change e (load_manifest mf) f = true).
  { rewrite existsb_exists. split; intros (f & Hf & Hm); exists f.
    - by rewrite list_elem_of_In.
    - by rewrite <- list_elem_of_In. }
  rewrite !orb_true_iff, Hempty, Hdel, Hmeta. tauto.
Qed.

(** ** The manifest a run saves *)

(** X4. The manifest saved by a completed run is determined by the source
    tree: two runs over the same tree save the same manifest, whatever
    manifest file and output tree each started from. *)
Theorem saved_manifest_history_independent (e : env) (mf mf' : manifest_file)
    (fs fs' : FS.t) (r r' : build_result) :
  build_site e mf fs = Some r ->
  build_site e mf' fs' = Some r' ->
  saved r = saved r'.
Proof.
  intros H H'.
  by rewrite (saved_manifest_of e mf fs r H), (saved_manifest_of e mf' fs' r' H').
Qed.

Lemma manifest_fold_lookup_inv e files : forall m k en,
  Dict.lookup k (bucket (m_posts (fold_left (manifest_step e) files m))) = Some en ->
  Dict.lookup k (bucket (m_posts m)) = Some en
  \/ exists f, f ∈ files /\ k = relative_path e f /\ entry_of e f = Some en.
Proof.
  induction files as [|f files IH]; intros m k en; simpl; [auto|].
  intros H. apply IH in H as [H|(f' & Hf' & Hk & Hen)].
  - unfold manifest_step in H. destruct (entry_of e f) as [en'|] eqn:Hen; [|auto].
    unfold set_post_entry in H. simpl in H.
    destruct (decide (relative_path e f = k)) as [<-|Hne].
    + rewrite DictFacts.lookup_set_eq in H. injection H as <-.
      right. exists f. split; [by apply elem_of_cons; left | done].
    + rewrite DictFacts.lookup_set_ne in H by done. auto.
  - right. exists f'. split; [by apply elem_of_cons; right | done].
Qed.

Lemma entry_of_hash_link e f en :
  entry_of e f = Some en ->
  Dict.get "hash" en = PStr (get_full_content_hash e f)
  /\ exists l, Dict.get "link" en = PStr l.
Proof.
  unfold entry_of. repeat case_match; intros [= <-]; split; try done; by eexists.
Qed.

(** X5. Every entry of the saved posts mapping belongs to a discovered
    document, stores the current hash of that file under [hash] and a string
    under [link]. So on the next run the entry needs a full build exactly
    when the hash of the file has changed. *)
Theorem saved_entries_have_hash_and_link (e : env) (mf : manifest_file) (fs : FS.t)
    (r : build_result) (k : string) (en : entry) :
  build_site e mf fs = Some r ->
  Dict.lookup k (bucket (m_posts (load_manifest (saved r)))) = Some en ->
  exists md_file,
    md_file ∈ md_files e
    /\ k = relative_path e md_file
    /\ Dict.get "hash" en = PStr (get_full_content_hash e md_file)
    /\ (exists l, Dict.get "link" en = PStr l)
    /\ forall h, needs_full_build h en = true <-> h <> get_full_content_hash e md_file.
Proof.
  intros Hb Hk. rewrite (saved_manifest_of e mf fs r Hb) in Hk. simpl in Hk.
  apply manifest_fold_lookup_inv in Hk as [Hk|(f & Hf & -> & Hen)].
  { rewrite check_theme_posts in Hk. done. }
  exists f. apply entry_of_hash_link in Hen as (Hh & l & Hl).
  repeat split; try done; [by exists l | |].
  - unfold needs_full_build. rewrite Hh, orb_true_iff, py_ne_true, negb_true_iff.
    intros [H|H]; [congruence|].
    unfold Dict.mem, Dict.get in *. by destruct (Dict.lookup "link" en).
  - intros Hne. unfold needs_full_build. rewrite Hh.
    apply orb_true_iff. left. apply py_ne_true. congruence.
Qed.

(** ** What gets listed *)

(** X6. The posts handed to the list pages, the feed and the sitemap are
    the posts of normal documents only: the 404 page, hidden pages and
    documents without date or title are never among them. *)
Theorem only_normal_documents_listed (e : env) (mf : manifest_file) (fs : FS.t)
    (r : build_result) (p : post) :
  build_site e mf fs = Some r ->
  p ∈ final_parsed_posts r ->
  exists md_file,
    md_file ∈ md_files e
    /\ p = post_of e md_file
    /\ is_404_page e md_file = false
    /\ is_hidden e md_file = false
    /\ has_required_fields (metadata_of e md_file) = true.
Proof.
  intros Hb Hp. apply build_site_inv in Hb as (fs0 & st1 & st2 & _ & H1 & H2 & ->).
  cbv zeta in *.
  destruct (generate_html_spec e (load_manifest mf)
              (fst (check_theme e (load_manifest mf))) st2) as (_ & Hf & _).
  rewrite Hf in Hp. unfold sorted_by_date_desc in Hp. rewrite sorted_by_perm in Hp.
  apply process_all_spec in H1 as (_ & _ & Hp1 & _).
  apply reconcile_all_spec in H2 as (_ & Hp2 & _).
  rewrite Hp2, Hp1 in Hp. simpl in Hp.
  apply list_elem_of_In, in_map_iff in Hp as (f & <- & Hf').
  apply filter_In in Hf' as [Hin Hn]. exists f.
  unfold is_normal in Hn. apply andb_true_iff in Hn as [Hn H3].
  apply andb_true_iff in Hn as [H1 H2].
  apply negb_true_iff in H1, H2. by rewrite list_elem_of_In.
Qed.

(** ** The output tree between runs *)

(** X12. In the output tree a completed run leaves, no file sits where the
    next run makes its directories: preparing the directories again
    succeeds. *)
Theorem output_tree_stays_preparable (e : env) (mf : manifest_file) (fs : FS.t)
    (r : build_result) :
  build_site e mf fs = Some r ->
  is_Some (prepare_dirs (out (final r))).
Proof.
  intros Hb. by apply prepare_dirs_succeeds, (build_site_leaves_safe e mf fs).
Qed.

(** ** The tag map *)

Lemma add_to_tag_map_elem p tm t p' :
  p' ∈ default [] (Dict.lookup t (add_to_tag_map p tm))
  <-> p' ∈ default [] (Dict.lookup t tm) \/ (p' = p /\ t ∈ post_tag_names p).
Proof.
  unfold add_to_tag_map, post_tag_names.
  generalize (default [] (meta_tags (post_metadata p))). intros tags.
  revert tm. induction tags as [|tg tags IH]; intros tm; simpl.
  - rewrite elem_of_nil. tauto.
  - rewrite IH, elem_of_cons.
    destruct (decide (tag_name tg = t)) as [<-|Hne].
    + rewrite DictFacts.lookup_set_eq. simpl. rewrite elem_of_app, list_elem_of_singleton.
      naive_solver.
    + rewrite DictFacts.lookup_set_ne by done. split; [tauto|].
      intros [H|[-> [H|H]]]; auto. congruence.
Qed.

Lemma process_md_tag_map e old theme st f st' :
  process_md e old theme st f = Some st' ->
  tag_map st' = if is_normal e f then add_to_tag_map (post_of e f) (tag_map st)
                else tag_map st.
Proof.
  unfold process_md, is_normal. intros H.
  destruct (is_404_page e f).
  { destruct (build_special _ _ _ _ _ _ _) as [st1|] eqn:Hb; simpl in H; [|done].
    injection H as <-. by apply build_special_spec in Hb as (_ & _ & _ & _ & Ht & _). }
  destruct (is_hidden e f).
  { destruct (is_about_page e f).
    - destruct (build_special _ _ _ _ _ _ _) as [st1|] eqn:Hb; simpl in H; [|done].
      injection H as <-. by apply build_special_spec in Hb as (_ & _ & _ & _ & Ht & _).
    - simpl in H. by injection H as <-. }
  destruct (has_required_fields _); simpl in *; [|by injection H as <-].
  destruct (cleanup_renamed _ _ _) as [fs1|]; simpl in H; [|done].
  injection H as <-. by repeat case_match.
Qed.

Lemma process_all_tag_map e old theme files : forall st st' t p,
  process_all e old theme files st = Some st' ->
  (p ∈ default [] (Dict.lookup t (tag_map st'))
   <-> p ∈ default [] (Dict.lookup t (tag_map st))
       \/ (p ∈ map (post_of e) (List.filter (is_normal e) files)
           /\ t ∈ post_tag_names p)).
Proof.
  induction files as [|f files IH]; intros st st' t p; simpl.
  - intros [= <-]. rewrite elem_of_nil. tauto.
  - destruct (process_md e old theme st f) as [st1|] eqn:H1; simpl; [|done].
    intros H2. rewrite (IH _ _ t p H2).
    apply process_md_tag_map in H1 as ->.
    destruct (is_normal e f); simpl; [|tauto].
    rewrite add_to_tag_map_elem, elem_of_cons. naive_solver.
Qed.

(** X7. After a completed run the tag map holds, under each tag name,
    exactly the parsed posts that carry that tag. *)
Theorem tag_map_lists_tagged_posts (e : env) (mf : manifest_file) (fs : FS.t)
    (r : build_result) (t : string) (p : post) :
  build_site e mf fs = Some r ->
  (p ∈ default [] (Dict.lookup t (tag_map (final r)))
   <-> p ∈ final_parsed_posts r /\ t ∈ post_tag_names p).
Proof.
  intros Hb. apply build_site_inv in Hb as (fs0 & st1 & st2 & _ & H1 & H2 & ->).
  cbv zeta in *.
  destruct (generate_html_spec e (load_manifest mf)
              (fst (check_theme e (load_manifest mf))) st2)
    as (_ & Hf & _ & _ & _ & _ & _ & _ & Htm).
  rewrite Htm, Hf. unfold sorted_by_date_desc. rewrite sorted_by_perm.
  pose proof (process_all_tag_map _ _ _ _ _ _ t p H1) as Ht.
  apply process_all_spec in H1 as (_ & _ & Hp1 & _).
  apply reconcile_all_spec in H2 as (_ & Hp2 & _ & Ht2 & _).
  rewrite Ht2, Hp2, Hp1, Ht. simpl. rewrite elem_of_nil. tauto.
Qed.

(** ** The order of the parsed posts *)

Lemma key_ltb_irrefl k : key_ltb k k = false.
Proof.
  destruct k as [d|]; [|done]. unfold key_ltb, date_ltb.
  rewrite !Nat.ltb_irrefl, !Nat.eqb_refl. done.
Qed.

Lemma key_ltb_asym a b : key_ltb a b = true -> key_ltb b a = false.
Proof.
  destruct a as [a|], b as [b|]; try done. unfold key_ltb, date_ltb.
  rewrite !orb_true_iff, !andb_true_iff, !orb_true_iff, !andb_true_iff,
    !orb_false_iff, !andb_false_iff, !orb_false_iff, !andb_false_iff,
    !Nat.ltb_lt, !Nat.ltb_ge, !Nat.eqb_eq, !Nat.eqb_neq.
  lia.
Qed.

Lemma key_not_ltb_trans a b c :
  key_ltb a b = false -> key_ltb b c = false -> key_ltb a c = false.
Proof.
  destruct a as [a|], b as [b|], c as [c|]; try done. unfold key_ltb, date_ltb.
  rewrite !orb_false_iff, !andb_false_iff, !orb_false_iff, !andb_false_iff,
    !Nat.ltb_ge, !Nat.eqb_neq.
  lia.
Qed.

Lemma insert_sorted_strongly x l :
  StronglySorted not_older l ->
  StronglySorted not_older
    (insert_sorted (fun y x => key_ltb (post_date x) (post_date y)) x l).
Proof.
  intros Hl. induction l as [|y r IH]; simpl.
  - repeat constructor.
  - apply StronglySorted_inv in Hl as [Hr Hy].
    destruct (key_ltb (post_date x) (post_date y)) eqn:E.
    + constructor; [by apply IH|].
      apply Forall_forall. intros z Hz.
      rewrite insert_sorted_perm in Hz.
      apply elem_of_cons in Hz as [->|Hz].
      * by apply key_ltb_asym.
      * by apply (proj1 (Forall_forall _ _) Hy).
    + constructor; [by constructor|]. constructor; [done|].
      apply Forall_forall. intros z Hz.
      apply (key_not_ltb_trans _ (post_date y)); [done|].
      by apply (proj1 (Forall_forall _ _) Hy).
Qed.

Lemma sorted_by_date_desc_strongly l :
  StronglySorted not_older (sorted_by_date_desc l).
Proof.
  unfold sorted_by_date_desc. induction l as [|x l IH]; simpl; [constructor|].
  by apply insert_sorted_strongly.
Qed.

Lemma insert_sorted_of_date d x l :
  posts_of_date d (insert_sorted (fun y x => key_ltb (post_date x) (post_date y)) x l)
  = posts_of_date d (x :: l).
Proof.
  unfold posts_of_date. induction l as [|y r IH]; simpl; [done|].
  destruct (key_ltb (post_date x) (post_date y)) eqn:E; [|done].
  simpl. rewrite IH. simpl.
  destruct (bool_decide (post_date x = d)) eqn:Ex; [|done].
  destruct (bool_decide (post_date y = d)) eqn:Ey; [|done].
  apply bool_decide_eq_true in Ex, Ey. rewrite Ex, Ey, key_ltb_irrefl in E. done.
Qed.

Lemma sorted_by_date_desc_of_date d l :
  posts_of_date d (sorted_by_date_desc l) = posts_of_date d l.
Proof.
  unfold sorted_by_date_desc. induction l as [|x l IH]; simpl; [done|].
  rewrite insert_sorted_of_date. unfold posts_of_date in *. simpl. by rewrite IH.
Qed.

(** X8. The posts handed to the list pages are ordered newest first: no
    post comes before a newer one, and the posts of one date keep the order
    in which their files were read. *)
Theorem listed_posts_newest_first (e : env) (mf : manifest_file) (fs : FS.t)
    (r : build_result) :
  build_site e mf fs = Some r ->
  StronglySorted not_older (final_parsed_posts r)
  /\ forall d, posts_of_date d (final_parsed_posts r)
               = posts_of_date d (map (post_of e) (List.filter (is_normal e) (md_files e))).
Proof.
  intros Hb. apply build_site_inv in Hb as (fs0 & st1 & st2 & _ & H1 & H2 & ->).
  cbv zeta in *.
  destruct (generate_html_spec e (load_manifest mf)
              (fst (check_theme e (load_manifest mf))) st2) as (_ & Hf & _).
  rewrite Hf. split; [apply sorted_by_date_desc_strongly|].
  intros d. rewrite sorted_by_date_desc_of_date.
  apply process_all_spec in H1 as (_ & _ & Hp1 & _).
  apply reconcile_all_spec in H2 as (_ & Hp2 & _).
  by rewrite Hp2, Hp1.
Qed.

(** ** Clean-up *)

Lemma rmtree_only_removes p s fs n :
  FS.find p (FS.rmtree s fs) = Some n -> FS.find p fs = Some n.
Proof. destruct (FSFacts.find_rmtree p s fs) as [-> | ->]; done. Qed.

Lemma remove_only_removes p s fs n :
  FS.find p (FS.remove s fs) = Some n -> FS.find p fs = Some n.
Proof. destruct (FSFacts.find_remove p s fs) as [-> | ->]; done. Qed.

(** X9. Both clean-up blocks only take away: whatever is in the output
    tree after the clean-up of a deleted source file, or after the clean-up
    for a changed slug, was there before, unchanged. *)
Theorem cleanup_only_removes (p : FS.path) (n : FS.node) (fs fs' : FS.t) :
  (exists deleted_link, fs' = cleanup_deleted deleted_link fs)
  \/ (exists old_link post_link, cleanup_renamed old_link post_link fs = Some fs') ->
  FS.find p fs' = Some n -> FS.find p fs = Some n.
Proof.
  intros [[link ->] | (old_link & post_link & H)].
  - unfold cleanup_deleted.
    repeat case_match; eauto using rmtree_only_removes, remove_only_removes.
  - revert H. unfold cleanup_renamed.
    destruct (_ && _); [|by intros [= <-]].
    destruct old_link; try done. intros [= <-].
    repeat case_match; eauto using rmtree_only_removes, remove_only_removes.
Qed.

(** ** A special page without a title *)

Lemma process_all_aborts e old theme f files : forall st,
  f ∈ files ->
  (forall st, process_md e old theme st f = None) ->
  process_all e old theme files st = None.
Proof.
  induction files as [|f0 files IH]; intros st Hin Hf; simpl.
  - by apply elem_of_nil in Hin.
  - apply elem_of_cons in Hin as [<-|Hin]; [by rewrite Hf|].
    destruct (process_md e old theme st f0); simpl; [by apply IH | done].
Qed.

(** X10. A 404 page or hidden about page that is stale and has no title
    aborts the whole run: [special_post['title']] raises a [KeyError] that
    nothing catches, and no manifest is saved. *)
Theorem stale_special_page_without_title_aborts (e : env) (mf : manifest_file)
    (fs : FS.t) (md_file : string) :
  md_file ∈ md_files e ->
  is_404_page e md_file = true
  \/ (is_hidden e md_file = true /\ is_about_page e md_file = true) ->
  meta_title (fst (get_metadata_and_content e md_file)) = None ->
  stale_html e (load_manifest mf) (fst (check_theme e (load_manifest mf))) md_file
  = true ->
  build_site e mf fs = None.
Proof.
  intros Hin Hsp Ht Hst. unfold build_site.
  destruct (prepare_dirs fs) as [fs0|]; simpl; [|done].
  destruct (check_theme e (load_manifest mf)) as [theme manifest0] eqn:Hth.
  simpl in Hst.
  rewrite (process_all_aborts e (load_manifest mf) theme md_file); [done..|].
  intros st. unfold process_md. fold (stale_html e (load_manifest mf) theme md_file).
  rewrite Hst. unfold build_special, metadata_of. simpl. rewrite Ht.
  destruct Hsp as [-> | [H1 H2]]; [done|].
  destruct (is_404_page e md_file); [done|]. by rewrite H1, H2.
Qed.

(** ** Writing a post page *)

Lemma find_write_self s c fs :
  FS.find (FS.to_path s) fs <> Some FS.Dir ->
  FS.find (FS.to_path s) (FS.write s c fs) = Some (FS.File c).
Proof.
  intros Hd. unfold FS.write. destruct (FS.find (FS.to_path s) fs) as [[|c']|] eqn:E.
  - done.
  - rewrite FSFacts.find_replace, decide_True by done. by rewrite E.
  - rewrite FSFacts.find_app, E. by rewrite decide_True.
Qed.

Lemma makedirs_fold_keeps ps : forall acc q n,
  FS.find q (fst acc) = Some n ->
  FS.find q (fst (fold_left FS.makedirs_step ps acc)) = Some n.
Proof.
  induction ps as [|p ps IH]; intros acc q n Hq; simpl; [done|].
  apply IH. unfold FS.makedirs_step. destruct (snd acc); [|done].
  destruct (FS.find p (fst acc)) as [[|c]|] eqn:E; simpl; try done.
  - destruct (FSFacts.find_mkdir q p (fst acc)) as [-> | [H _]]; congruence.
  - destruct (FSFacts.find_mkdir q p (fst acc)) as [-> | [H _]]; congruence.
Qed.

(** X11. For a post with a real link, when the page directory can be made,
    the template renders and no directory sits at the page path,
    [generate_post_page] leaves the rendered text in [index.html] under
    [_site/<link without .html>], and everything else that was in the tree
    is still there, unchanged. *)
Theorem generate_post_page_writes (e : env) (p : post) (fs : FS.t)
    (relative_link html : string) :
  post_link p = Some relative_link ->
  relative_link <> "" ->
  Str.lower relative_link <> "404.html" ->
  snd (FS.makedirs (post_output_dir relative_link) fs) = true ->
  render e (GeneratePostPage p) = Some html ->
  FS.find (FS.to_path (post_output_path relative_link))
    (fst (FS.makedirs (post_output_dir relative_link) fs)) <> Some FS.Dir ->
  FS.find (FS.to_path (post_output_path relative_link)) (generate_post_page e p fs)
  = Some (FS.File html)
  /\ forall q n, q <> FS.to_path (post_output_path relative_link) ->
       FS.find q fs = Some n -> FS.find q (generate_post_page e p fs) = Some n.
Proof.
  intros Hl Hne H404 Hmk Hr Hnd. unfold generate_post_page. rewrite Hl.
  apply String.eqb_neq in Hne, H404. rewrite Hne, H404.
  fold (post_output_dir relative_link).
  destruct (FS.makedirs (post_output_dir relative_link) fs) as [fs1 ok] eqn:Hm.
  simpl in *. subst ok. rewrite Hr. fold (post_output_path relative_link).
  split; [by apply find_write_self|].
  intros q n Hq Hfind. rewrite FSFacts.find_write by done.
  pose proof (makedirs_fold_keeps
    (FS.prefixes [] (FS.to_path (post_output_dir relative_link))) (fs, true) q n Hfind) as Hk.
  unfold FS.makedirs in Hm. by rewrite Hm in Hk.
Qed.

(** ** parser.py: what normalisation guarantees *)

(** X13. For a file that can be read, normalisation sets slug, date, title
    and tags whatever the front matter holds, so the driver's check for date
    and title can only fail for a file that could not be read, whose
    metadata is empty. *)
Theorem readable_file_is_fully_normalised (l : Parser.lib) (md_file_path : string)
    (src : Parser.source) (m : metadata) (content_html : string) :
  Parser.get_metadata_and_content l md_file_path src = Some (m, content_html) ->
  match src with
  | Parser.Unreadable => m = empty_metadata /\ content_html = ""
  | Parser.Readable fm content_markdown =>
      is_Some (meta_slug m) /\ is_Some (meta_date m) /\ is_Some (meta_title m)
      /\ is_Some (meta_tags m)
      /\ has_required_fields m = true
      /\ meta_hidden m = Parser.fm_hidden fm
      /\ meta_status m = Parser.fm_status fm
  end.
Proof.
  destruct src as [|fm content]; simpl.
  - by intros [= <- <-].
  - unfold Parser.normalize.
    destruct (Parser.normalize_tags _ _) as [tags|]; simpl; [|done].
    destruct (match Parser.fm_title fm with Some _ => _ | None => _ end) as [t|];
      simpl; [|done].
    intros [= <- _]. simpl. by repeat split; eexists.
Qed.

Module StrMore.

Lemma free_of_app c a b :
  Str.free_of c (a +:+ b) = Str.free_of c a && Str.free_of c b.
Proof.
  induction a as [|x a IH]; [done|]. rewrite StrFacts.app_cons. simpl.
  by rewrite IH, andb_assoc.
Qed.

Lemma free_of_rev c s : Str.free_of c (String.rev s) = Str.free_of c s.
Proof.
  induction s as [|x s IH]; [done|].
  rewrite StrFacts.rev_cons, free_of_app, IH. simpl.
  rewrite andb_true_r. apply andb_comm.
Qed.

Lemma endswith_free c s :
  Str.free_of c s = true -> Str.endswith s (String c EmptyString) = false.
Proof.
  intros Hs. unfold Str.endswith. rewrite <- free_of_rev in Hs.
  change (String.rev (String c EmptyString)) with (String c EmptyString).
  destruct (String.rev s) as [|x r]; [done|]. simpl in *.
  apply andb_true_iff in Hs as [Hx _]. apply negb_true_iff in Hx.
  destruct (ascii_dec c x) as [->|Hne]; [|done].
  by rewrite Ascii.eqb_refl in Hx.
Qed.

Lemma matches_pattern_app pattern : forall a b,
  Parser.matches_pattern pattern a = true ->
  Parser.matches_pattern pattern (a +:+ b) = true.
Proof.
  induction pattern as [|p pattern IH]; intros a b; [done|].
  destruct a as [|x a]; [done|]. rewrite StrFacts.app_cons. simpl.
  rewrite !andb_true_iff. intros [H1 H2]. split; [done | by apply IH].
Qed.

Lemma drop_app a : forall n b, String.length a = n -> Parser.drop n (a +:+ b) = b.
Proof.
  induction a as [|x a IH]; intros n b Hn; simpl in Hn; subst n.
  - by destruct b.
  - rewrite StrFacts.app_cons. simpl. by apply IH.
Qed.

Lemma digit_not_newline a : Parser.is_digit a = true -> Ascii.eqb a Parser.newline = false.
Proof.
  intros Hd. destruct (Ascii.eqb a Parser.newline) eqn:E; [|done].
  apply Ascii.eqb_eq in E. by subst a.
Qed.

Lemma matches_pattern_free pattern : forall a,
  Parser.matches_pattern pattern a = true ->
  String.length a = String.length pattern ->
  Str.free_of Parser.newline pattern = true ->
  Str.free_of Parser.newline a = true.
Proof.
  induction pattern as [|p pattern IH]; intros a Hm Hl Hp.
  - by destruct a.
  - destruct a as [|x a]; [done|]. simpl in *.
    apply andb_true_iff in Hm as [Hx Hm]. apply andb_true_iff in Hp as [Hp1 Hp2].
    apply andb_true_iff. split; [|apply IH; auto].
    destruct (Ascii.eqb p "d"%char).
    + apply negb_true_iff. by apply digit_not_newline.
    + apply Ascii.eqb_eq in Hx. by subst x.
Qed.

End StrMore.

(** X15. The slug the parser takes from a file name: a leading date
    [dddd-dd-dd-] is dropped and the rest is lowered; a name that is only
    such a date, or has no such date, is lowered as a whole. *)
Theorem slug_drops_leading_date (date_prefix rest : string) :
  String.length date_prefix = 11 ->
  Parser.matches_pattern "dddd-dd-dd-" date_prefix = true ->
  Str.free_of Parser.newline rest = true ->
  Parser.slug_of_base_name (date_prefix +:+ rest)
  = (if String.eqb rest "" then Str.lower (date_prefix +:+ rest) else Str.lower rest)
  /\ (Parser.matches_pattern "dddd-dd-dd-" rest = false ->
      Parser.slug_of_base_name rest = Str.lower rest).
Proof.
  intros Hlen Hm Hrest.
  assert (Hfree : Str.free_of Parser.newline (date_prefix +:+ rest) = true).
  { rewrite StrMore.free_of_app, Hrest, andb_true_r.
    by apply (StrMore.matches_pattern_free "dddd-dd-dd-"). }
  split.
  - unfold Parser.slug_of_base_name.
    rewrite (StrMore.endswith_free _ _ Hfree), Hfree. simpl negb. cbv iota.
    rewrite StrMore.matches_pattern_app by done.
    by rewrite StrMore.drop_app.
  - intros Hno. unfold Parser.slug_of_base_name.
    rewrite (StrMore.endswith_free _ _ Hrest), Hrest, Hno. simpl negb. cbv iota.
    by destruct (String.eqb rest "") eqn:E; [apply String.eqb_eq in E; subst|].
Qed.

Lemma split_go_pieces_free c s : forall cur,
  Str.free_of c cur = true -> Forall (fun x => Str.free_of c x = true) (Str.split_go c cur s).
Proof.
  induction s as [|a s IH]; intros cur Hcur; simpl.
  - constructor; [by rewrite StrMore.free_of_rev | constructor].
  - destruct (Ascii.eqb a c) eqn:E.
    + constructor; [by rewrite StrMore.free_of_rev | by apply IH].
    + apply IH. simpl. by rewrite E.
Qed.

Lemma lstrip_space_free c s :
  Str.free_of c s = true -> Str.free_of c (Parser.lstrip_space s) = true.
Proof.
  induction s as [|a s IH]; [done|]. simpl. intros H.
  destruct (Ascii.is_space a); [|done].
  apply andb_true_iff in H as [_ H]. by apply IH.
Qed.

Lemma strip_space_free c s :
  Str.free_of c s = true -> Str.free_of c (Parser.strip_space s) = true.
Proof.
  intros H. unfold Parser.strip_space.
  rewrite StrMore.free_of_rev. apply lstrip_space_free.
  rewrite StrMore.free_of_rev. by apply lstrip_space_free.
Qed.

(** X14. The tags the parser builds never have an empty name, and each
    carries the slug of its name. Tags given as one comma separated string
    come out without a comma in any name; tags given as a list are names of
    that list; with no tags key the list is empty. *)
Theorem normalised_tags_are_named (l : Parser.lib) (raw : option Parser.raw_tags)
    (tags : list tag) (t : tag) :
  Parser.normalize_tags l raw = Some tags ->
  t ∈ tags ->
  tag_name t <> ""
  /\ tag_slug t = Parser.tag_to_slug l (tag_name t)
  /\ match raw with
     | Some (Parser.TagsString s) => Str.free_of ","%char (tag_name t) = true
     | Some (Parser.TagsList names) => tag_name t ∈ names
     | _ => False
     end.
Proof.
  unfold Parser.normalize_tags. intros Hn Ht.
  assert (Hmake : forall names,
    t ∈ map (fun t => {| tag_name := t; tag_slug := Parser.tag_to_slug l t |})
          (List.filter (fun t => negb (String.eqb t "")) names) ->
    tag_name t <> "" /\ tag_slug t = Parser.tag_to_slug l (tag_name t)
    /\ tag_name t ∈ names).
  { intros names Hin. apply list_elem_of_In, in_map_iff in Hin as (x & <- & Hx).
    apply filter_In in Hx as [Hx Hne]. simpl.
    apply negb_true_iff, String.eqb_neq in Hne. by rewrite list_elem_of_In. }
  destruct raw as [[s|names|]|]; try done; injection Hn as <-.
  - apply Hmake in Ht as (H1 & H2 & H3). repeat split; [done..|].
    apply list_elem_of_In, in_map_iff in H3 as (x & <- & Hx).
    apply strip_space_free.
    pose proof (split_go_pieces_free ","%char s EmptyString eq_refl) as Hall.
    rewrite Forall_forall in Hall. by apply Hall, list_elem_of_In.
  - by apply Hmake in Ht as (H1 & H2 & H3).
  - simpl in Ht. by apply elem_of_nil in Ht.
Qed.

(** ** generator.py: the URL of a post and the place of its page *)

Lemma prefix_app p s : String.prefix p (p +:+ s) = true.
Proof.
  induction p as [|a p IH]; [by destruct s|].
  rewrite StrFacts.app_cons. simpl. by destruct (ascii_dec a a).
Qed.

Lemma prefix_app_free c q : forall t u,
  Str.free_of c q = true ->
  String.prefix q (t +:+ String c u) = String.prefix q t.
Proof.
  induction q as [|x q IH]; intros t u Hq; [by destruct t|].
  simpl in Hq. apply andb_true_iff in Hq as [Hx Hq].
  destruct t as [|y t].
  - simpl. destruct (ascii_dec x c) as [->|]; [|done].
    by rewrite Ascii.eqb_refl in Hx.
  - rewrite StrFacts.app_cons. simpl. destruct (ascii_dec x y); [by apply IH|done].
Qed.

Lemma rev_app a b : String.rev (a +:+ b) = String.rev b +:+ String.rev a.
Proof.
  induction a as [|x a IH].
  - change ("" +:+ b) with b. change (String.rev "") with "". by rewrite StrFacts.app_nil_r.
  - rewrite StrFacts.app_cons, !StrFacts.rev_cons, IH. by rewrite StrFacts.app_assoc.
Qed.

Lemma rev_involutive s : String.rev (String.rev s) = s.
Proof.
  induction s as [|x s IH]; [done|].
  rewrite StrFacts.rev_cons, rev_app, IH. done.
Qed.

Lemma lower_app a b : Str.lower (a +:+ b) = Str.lower a +:+ Str.lower b.
Proof. induction a as [|x a IH]; [done|]. rewrite StrFacts.app_cons. simpl. by rewrite IH. Qed.

Lemma lower_ascii_idem c : Str.lower_ascii (Str.lower_ascii c) = Str.lower_ascii c.
Proof. by destruct c as [[] [] [] [] [] [] [] []]. Qed.

Lemma lower_idem s : Str.lower (Str.lower s) = Str.lower s.
Proof. induction s as [|x s IH]; [done|]. simpl. by rewrite lower_ascii_idem, IH. Qed.

Lemma substring_app a b : String.substring 0 (String.length a) (a +:+ b) = a.
Proof.
  induction a as [|x a IH]; [by destruct b|].
  rewrite StrFacts.app_cons. simpl. by rewrite IH.
Qed.

Lemma drop_last_app a b n : String.length b = n -> Str.drop_last n (a +:+ b) = a.
Proof.
  intros <-. unfold Str.drop_last. rewrite StrFacts.length_app.
  replace (String.length a + String.length b - String.length b) with (String.length a) by lia.
  apply substring_app.
Qed.

Lemma replace_free a b s : Str.free_of a s = true -> Str.replace a b s = s.
Proof.
  induction s as [|x s IH]; [done|]. simpl. intros [Hx Hs]%andb_true_iff.
  rewrite IH by done. by destruct (Ascii.eqb x a).
Qed.

Lemma endswith_app a b : Str.endswith (a +:+ b) b = true.
Proof. unfold Str.endswith. rewrite rev_app. apply prefix_app. Qed.

Lemma free_head_rev c s :
  s <> "" -> Str.free_of c s = true ->
  exists x r, String.rev s = String x r /\ Ascii.eqb x c = false.
Proof.
  intros Hne Hfree. rewrite <- StrMore.free_of_rev in Hfree.
  destruct (String.rev s) as [|x r] eqn:Hrev.
  - destruct Hne. by rewrite <- (rev_involutive s), Hrev.
  - simpl in Hfree. apply andb_true_iff in Hfree as [Hx _].
    exists x, r. split; [done|]. by destruct (Ascii.eqb x c).
Qed.

Lemma rstrip_app_free c a s :
  s <> "" -> Str.free_of c s = true -> Str.rstrip c (a +:+ s) = a +:+ s.
Proof.
  intros Hne Hfree. destruct (free_head_rev c s Hne Hfree) as (x & r & Hrev & Hx).
  unfold Str.rstrip. rewrite rev_app, Hrev, StrFacts.app_cons. simpl. rewrite Hx.
  by rewrite <- StrFacts.app_cons, <- Hrev, <- rev_app, rev_involutive.
Qed.

Lemma endswith_slash_free c a s :
  s <> "" -> Str.free_of c s = true -> Str.endswith (a +:+ s) (String c "") = false.
Proof.
  intros Hne Hfree. destruct (free_head_rev c s Hne Hfree) as (x & r & Hrev & Hx).
  unfold Str.endswith. rewrite rev_app, Hrev, StrFacts.app_cons.
  change (String.rev (String c "")) with (String c ""). simpl.
  destruct (ascii_dec c x) as [->|]; [|done]. by rewrite Ascii.eqb_refl in Hx.
Qed.

Lemma startswith_free c s :
  s <> "" -> Str.free_of c s = true -> forall t, Str.startswith (s +:+ t) (String c "") = false.
Proof.
  intros Hne Hfree t. destruct s as [|x s]; [done|]. simpl in Hfree.
  apply andb_true_iff in Hfree as [Hx _]. rewrite StrFacts.app_cons.
  unfold Str.startswith. simpl.
  destruct (ascii_dec c x) as [->|]; [|done]. by rewrite Ascii.eqb_refl in Hx.
Qed.

Lemma endswith_under_slash a s p :
  Str.free_of "/"%char p = true ->
  Str.endswith ((a +:+ "/") +:+ s) p = Str.endswith s p.
Proof.
  intros Hp. unfold Str.endswith. rewrite !rev_app.
  change (String.rev "/") with "/". rewrite StrFacts.app_cons.
  apply prefix_app_free. by rewrite StrMore.free_of_rev.
Qed.

Lemma post_link_of_slug (e : env) (md_file : string) :
  slug_of e md_file <> "" ->
  Str.free_of "/"%char (slug_of e md_file) = true ->
  Str.free_of "\"%char (slug_of e md_file) = true ->
  post_link_of e md_file = "posts/" +:+ slug_of e md_file +:+ ".html".
Proof.
  intros Hne Hs Hb. unfold post_link_of, Path.join, POSTS_DIR_NAME. simpl.
  unfold Path.join2. rewrite (startswith_free _ _ Hne Hs).
  change (String.eqb "posts" "" || Str.endswith "posts" "/") with false. cbv iota.
  rewrite replace_free; [done|].
  change ("posts" +:+ "/" +:+ ?x) with ("posts/" +:+ x).
  rewrite !StrMore.free_of_app, Hb. done.
Qed.

Lemma post_output_dir_slug (slug : string) :
  slug <> "" -> Str.free_of "/"%char slug = true ->
  post_output_dir ("posts/" +:+ slug +:+ ".html") = "_site/posts/" +:+ slug.
Proof.
  intros Hne Hs. unfold post_output_dir.
  rewrite <- StrFacts.app_assoc, lower_app.
  change (Str.lower ".html") with ".html". rewrite endswith_app.
  rewrite (drop_last_app _ ".html" 5) by done.
  unfold Str.strip. change (Str.lstrip "/" ("posts/" +:+ slug)) with ("posts/" +:+ slug).
  rewrite rstrip_app_free by done. done.
Qed.

(** X16. For a document whose slug is not empty, has no slash or
    backslash and does not end in the name of the feed or of the sitemap,
    the URL made from the post link is the site root followed by
    [/posts/<slug>/], and the page is written to
    [_site/posts/<slug>/index.html]: the URL names the directory the page
    is in. *)
Theorem post_url_names_output_dir (e : env) (repo_subpath md_file : string) :
  slug_of e md_file <> "" ->
  Str.free_of "/"%char (slug_of e md_file) = true ->
  Str.free_of "\"%char (slug_of e md_file) = true ->
  Str.endswith (slug_of e md_file) RSS_FILE = false ->
  Str.endswith (slug_of e md_file) SITEMAP_FILE = false ->
  make_internal_url repo_subpath (post_link_of e md_file)
    = get_site_root_prefix repo_subpath +:+ "/posts/" +:+ slug_of e md_file +:+ "/"
  /\ post_output_path (post_link_of e md_file)
     = "_site/posts/" +:+ slug_of e md_file +:+ "/index.html".
Proof.
  intros Hne Hs Hb Hrss Hmap.
  rewrite (post_link_of_slug e md_file Hne Hs Hb).
  assert (Hlow : Str.lower (slug_of e md_file) = slug_of e md_file)
    by (unfold slug_of; apply lower_idem).
  set (slug := slug_of e md_file) in *.
  split.
  - unfold make_internal_url.
    change (String.eqb ("posts/" +:+ slug +:+ ".html") "") with false. cbv iota.
    change (Str.startswith ("posts/" +:+ slug +:+ ".html") "/") with false. cbv iota.
    change ("/" +:+ "posts/" +:+ slug +:+ ".html") with (("/posts" +:+ "/") +:+ slug +:+ ".html").
    cbv zeta.
    set (n := ("/posts" +:+ "/") +:+ slug +:+ ".html").
    assert (Hn : Str.lower n = (("/posts" +:+ "/") +:+ slug) +:+ ".html").
    { unfold n. rewrite !lower_app, Hlow. by rewrite StrFacts.app_assoc. }
    assert (Hhtml : Str.endswith (Str.lower n) ".html" = true)
      by (rewrite Hn; apply endswith_app).
    assert (Hr : Str.endswith (Str.lower n) RSS_FILE = false).
    { unfold n. rewrite !lower_app, Hlow.
      change (Str.lower "/posts" +:+ Str.lower "/") with ("/posts" +:+ "/").
      rewrite endswith_under_slash by done.
      unfold Str.endswith. rewrite rev_app.
      destruct (String.rev slug); done. }
    assert (Hm : Str.endswith (Str.lower n) SITEMAP_FILE = false).
    { unfold n. rewrite !lower_app, Hlow.
      change (Str.lower "/posts" +:+ Str.lower "/") with ("/posts" +:+ "/").
      rewrite endswith_under_slash by done.
      unfold Str.endswith. rewrite rev_app.
      destruct (String.rev slug); done. }
    assert (H404 : String.eqb (Str.lower n) "/404.html" = false) by (by rewrite Hn).
    rewrite Hhtml, Hr, Hm, H404. simpl negb. cbv iota. simpl andb. cbv iota.
    assert (Hd : Str.drop_last 5 n = ("/posts" +:+ "/") +:+ slug).
    { unfold n. rewrite <- StrFacts.app_assoc. by apply drop_last_app. }
    rewrite Hd.
    assert (Hl : Str.lower (("/posts" +:+ "/") +:+ slug) = ("/posts" +:+ "/") +:+ slug)
      by (by rewrite lower_app, Hlow).
    rewrite Hl.
    change (String.eqb (("/posts" +:+ "/") +:+ slug) "/index") with false.
    change (String.eqb (("/posts" +:+ "/") +:+ slug) "/404") with false.
    change (String.eqb (("/posts" +:+ "/") +:+ slug) "/404.html") with false.
    change (String.eqb (("/posts" +:+ "/") +:+ slug) "/") with false.
    rewrite !endswith_under_slash by done. rewrite Hrss, Hmap.
    rewrite (endswith_slash_free "/"%char) by done.
    simpl orb. simpl negb. simpl andb. cbv iota.
    destruct (String.eqb (get_site_root_prefix repo_subpath) "") eqn:Hroot.
    + apply String.eqb_eq in Hroot. rewrite Hroot. done.
    + change (String.eqb ((("/posts" +:+ "/") +:+ slug) +:+ "/") "/") with false. cbv iota.
      change (("/posts" +:+ "/") +:+ slug) with ("/posts/" +:+ slug). 
      by rewrite !StrFacts.app_assoc.
  - unfold post_output_path. rewrite post_output_dir_slug by done.
    unfold Path.join. simpl. unfold Path.join2.
    change (Str.startswith "index.html" "/") with false. cbv iota.
    change (String.eqb ("_site/posts/" +:+ slug) "") with false.
    rewrite (endswith_slash_free "/"%char) by done. simpl orb. cbv iota.
    by rewrite !StrFacts.app_assoc.
Qed.

(** ** autobuild.py: previous/next navigation *)

Lemma visible_posts_filter (posts : list post) :
  (forall p, p ∈ posts -> is_Some (is_post_hidden p)) ->
  visible_posts posts = Some (filter (fun p => is_post_hidden p = Some false) posts).
Proof.
  induction posts as [|p posts IH]; intros Hall; [done|].
  simpl. destruct (Hall p) as [h Hh]; [set_solver|].
  rewrite Hh, IH by (intros; apply Hall; set_solver). simpl.
  destruct h.
  - by rewrite filter_cons_False by congruence.
  - by rewrite filter_cons_True by done.
Qed.

Lemma first_with_link_lookup (posts : list post) : forall i p l,
  NoDup (map post_link posts) ->
  (forall q, q ∈ posts -> is_Some (post_link q)) ->
  posts !! i = Some p -> post_link p = Some l ->
  first_with_link l posts = Some i.
Proof.
  induction posts as [|q posts IH]; intros i p l Hnd Hall Hi Hl; [done|].
  apply NoDup_cons in Hnd as [Hq Hnd]. simpl.
  destruct i as [|i]; simpl in Hi.
  - simplify_eq. rewrite Hl. simpl. by rewrite String.eqb_refl.
  - destruct (Hall q) as [lq Hlq]; [set_solver|]. rewrite Hlq. simpl.
    destruct (String.eqb lq l) eqn:Heq.
    + apply String.eqb_eq in Heq as ->. destruct Hq. rewrite Hlq, <- Hl.
      apply list_elem_of_fmap_2. by eapply list_elem_of_lookup_2.
    + rewrite (IH i p l); [done|done| |done|done].
      intros; apply Hall; set_solver.
Qed.

Lemma first_with_link_sound (posts : list post) : forall l idx,
  first_with_link l posts = Some idx ->
  (exists p, posts !! idx = Some p /\ post_link p = Some l)
  /\ forall i q, i < idx -> posts !! i = Some q -> post_link q <> Some l.
Proof.
  induction posts as [|p posts IH]; intros l idx H; [done|].
  simpl in H. destruct (post_link p) as [pl|] eqn:Hpl; [|done]. simpl in H.
  destruct (String.eqb pl l) eqn:Heq.
  - apply String.eqb_eq in Heq as ->. simplify_eq. split; [by exists p|]. lia.
  - destruct (first_with_link l posts) as [j|] eqn:Hj; [|done]. simpl in H. simplify_eq.
    destruct (IH l j Hj) as [Hat Hbefore]. split; [done|].
    intros [|i] q Hlt Hq; simpl in Hq.
    + simplify_eq. rewrite Hpl. intros [= ->]. by rewrite String.eqb_refl in Heq.
    + apply (Hbefore i); [lia|done].
Qed.

Lemma nav_data_lookup (o : option post) :
  (forall q, o = Some q -> is_Some (nav_of q)) ->
  nav_data o = Some (o ≫= nav_of).
Proof.
  destruct o as [q|]; [|done]. intros H. destruct (H q) as [n Hn]; [done|].
  simpl. by rewrite Hn.
Qed.

Section nav_chain.
Variable posts : list post.
Hypothesis posts_ok : forall p, p ∈ posts -> is_Some (is_post_hidden p) /\ is_Some (nav_of p).
Hypothesis links_nodup : NoDup (map post_link posts).

Local Abbreviation visible := (shown_posts posts).

Lemma visible_in_posts p : p ∈ visible -> p ∈ posts.
Proof. unfold shown_posts. rewrite list_elem_of_filter. tauto. Qed.

Lemma posts_have_link q : q ∈ posts -> is_Some (post_link q).
Proof.
  intros Hq. destruct (posts_ok q Hq) as [_ [n Hn]]. unfold nav_of in Hn.
  destruct (meta_title (post_metadata q)); [|done]. simpl in Hn.
  by destruct (post_link q).
Qed.

Lemma posts_nodup : NoDup posts.
Proof. by eapply NoDup_fmap_1. Qed.

Lemma visible_nodup : NoDup visible.
Proof. apply NoDup_filter, posts_nodup. Qed.

Lemma nav_step_chain m p store :
  visible !! m = Some p -> nav_inv posts m store ->
  exists store', nav_step posts visible store m p = Some store' /\ nav_inv posts (S m) store'.
Proof.
  intros Hm [Hlen Hinv].
  assert (Hp : p ∈ posts) by (apply visible_in_posts; by eapply list_elem_of_lookup_2).
  destruct (posts_have_link p Hp) as [l Hl].
  apply list_elem_of_lookup in Hp as [idx Hidx].
  unfold nav_step. rewrite Hl. simpl.
  rewrite (first_with_link_lookup posts idx p l links_nodup posts_have_link Hidx Hl). simpl.
  assert (Hnav : forall j q, visible !! j = Some q -> is_Some (nav_of q)).
  { intros j q Hq. apply posts_ok, visible_in_posts. by eapply list_elem_of_lookup_2. }
  assert (Hprev : match m with 0 => Some None | S j => nav_data (visible !! j) end
                  = Some (fst (nav_entry visible m))).
  { destruct m as [|j]; [done|]. simpl. apply nav_data_lookup. eauto. }
  rewrite Hprev, (nav_data_lookup (visible !! S m)) by eauto. simpl.
  eexists. split; [done|]. split; [by rewrite length_insert|].
  intros i q Hq. destruct (decide (i = idx)) as [->|Hne].
  - assert (q = p) by congruence. subst q.
    rewrite list_lookup_insert_eq by (rewrite Hlen; by eapply lookup_lt_Some).
    split.
    + intros k _ Hk. by rewrite (NoDup_lookup _ _ _ _ visible_nodup Hk Hm).
    + intros Hno. exfalso. apply (Hno m); [lia|done].
  - rewrite list_lookup_insert_ne by done.
    assert (Hqp : q <> p).
    { intros ->. destruct Hne. exact (NoDup_lookup posts i idx p posts_nodup Hq Hidx). }
    destruct (Hinv i q Hq) as [Hin Hout]. split.
    + intros k Hlt Hk. apply Hin; [|done].
      destruct (decide (k = m)) as [->|]; [congruence|lia].
    + intros Hno. apply Hout. intros k Hlt. apply Hno. lia.
Qed.

Lemma nav_loop_chain : forall rest m store,
  drop m visible = rest -> nav_inv posts m store ->
  exists store' m', nav_loop posts visible m rest store = Some store'
    /\ nav_inv posts m' store' /\ List.length visible <= m'.
Proof.
  induction rest as [|p rest IH]; intros m store Hdrop Hinv.
  - exists store, m. split; [done|]. split; [done|].
    apply drop_nil_inv in Hdrop. done.
  - assert (Hm : visible !! m = Some p).
    { pose proof (lookup_drop visible m 0) as H. rewrite Hdrop, Nat.add_0_r in H. done. }
    destruct (nav_step_chain m p store Hm Hinv) as (store1 & Hstep & Hinv1).
    simpl. rewrite Hstep. simpl. apply IH; [|done].
    pose proof (drop_drop visible 1 m) as H. rewrite Hdrop, Nat.add_1_r in H. done.
Qed.

Lemma inject_nav_chain :
  exists store, inject_nav posts = Some store
    /\ List.length store = List.length posts
    /\ forall i p, posts !! i = Some p ->
         (forall k, visible !! k = Some p ->
            store !! i = Some (Some (nav_entry visible k)))
         /\ (p ∉ visible -> store !! i = Some None).
Proof.
  unfold inject_nav. rewrite visible_posts_filter by (intros; by apply posts_ok).
  simpl. fold (shown_posts posts).
  destruct (nav_loop_chain visible 0 (replicate (List.length posts) None)) as (store & m & Hloop & [Hlen Hinv] & Hm).
  - done.
  - split; [by rewrite length_replicate|]. intros i p Hp. split; [lia|].
    intros _. apply lookup_replicate_2. by eapply lookup_lt_Some.
  - exists store. split; [done|]. split; [done|].
    intros i p Hp. destruct (Hinv i p Hp) as [Hin Hout]. split.
    + intros k Hk. apply Hin; [|done]. apply lookup_lt_Some in Hk. lia.
    + intros Hno. apply Hout. intros k _ Hk. apply Hno. by eapply list_elem_of_lookup_2.
Qed.

End nav_chain.

(** X17. When every post of the list has a title, a link and a status that
    is absent or a string, and no two posts share a link, the navigation
    injection succeeds and chains the posts that are not hidden: the
    [k]-th of them is given the title and link of the one before it and of
    the one after it ([None] at either end), and a hidden post is given no
    navigation keys at all. *)
Theorem navigation_chains_shown_posts (posts : list post) :
  (forall p, p ∈ posts -> is_Some (is_post_hidden p) /\ is_Some (nav_of p)) ->
  NoDup (map post_link posts) ->
  exists store, inject_nav posts = Some store
    /\ List.length store = List.length posts
    /\ forall i p, posts !! i = Some p ->
         (forall k, shown_posts posts !! k = Some p ->
            store !! i = Some (Some (nav_entry (shown_posts posts) k)))
         /\ (p ∉ shown_posts posts -> store !! i = Some None).
Proof. apply inject_nav_chain. Qed.

Lemma visible_posts_raises (posts : list post) (p : post) :
  p ∈ posts -> is_post_hidden p = None -> visible_posts posts = None.
Proof.
  induction posts as [|q posts IH]; [by intros ?%elem_of_nil|].
  intros [->|Hin]%elem_of_cons Hp; simpl.
  - by rewrite Hp.
  - rewrite (IH Hin Hp). by destruct (is_post_hidden q).
Qed.

(** X18. A post whose [status] is present and not a string makes the
    navigation injection raise, wherever the post stands in the list and
    whatever the other posts are. *)
Theorem non_string_status_raises (posts : list post) (p : post) (v : pyval) :
  p ∈ posts ->
  meta_status (post_metadata p) = Some v ->
  (forall s, v <> PStr s) ->
  inject_nav posts = None.
Proof.
  intros Hin Hv Hs. unfold inject_nav.
  rewrite (visible_posts_raises posts p Hin); [done|].
  unfold is_post_hidden. rewrite Hv. simpl. destruct v; try done. by destruct (Hs s).
Qed.

Lemma nav_loop_keeps_unset (posts visible : list post) (j : nat) :
  (forall l idx, first_with_link l posts = Some idx -> idx <> j) ->
  forall rest m store store',
  nav_loop posts visible m rest store = Some store' ->
  store !! j = Some None -> store' !! j = Some None.
Proof.
  intros Hj. induction rest as [|p rest IH]; intros m store store' Hloop Hstore.
  - simpl in Hloop. by simplify_eq.
  - simpl in Hloop. destruct (nav_step posts visible store m p) as [store1|] eqn:Hstep; [|done].
    simpl in Hloop. apply (IH _ _ _ Hloop).
    unfold nav_step in Hstep.
    destruct (post_link p) as [l|]; [|done]. simpl in Hstep.
    destruct (first_with_link l posts) as [idx|] eqn:Hidx; [|done]. simpl in Hstep.
    destruct (match m with 0 => Some None | S j0 => nav_data (visible !! j0) end); [|done].
    simpl in Hstep. destruct (nav_data (visible !! S m)); [|done]. simpl in Hstep.
    simplify_eq. rewrite list_lookup_insert_ne; [done|]. by eapply Hj.
Qed.

(** X19. A post whose link is also the link of an earlier post of the list
    is never given navigation keys: the loop writes them to the first post
    with that link. *)
Theorem later_duplicate_link_gets_no_navigation (posts : list post)
    (store : list nav_slot) (i j : nat) (p q : post) :
  inject_nav posts = Some store ->
  posts !! i = Some p -> posts !! j = Some q -> i < j ->
  post_link p = post_link q ->
  store !! j = Some None.
Proof.
  intros Hrun Hp Hq Hlt Hlink. unfold inject_nav in Hrun.
  destruct (visible_posts posts) as [visible|]; [|done]. simpl in Hrun.
  apply (nav_loop_keeps_unset posts visible j) in Hrun; [done| |].
  - intros l idx Hidx ->. destruct (first_with_link_sound posts l j Hidx) as [(q' & Hq' & Hl) Hbefore].
    assert (q' = q) by congruence. subst q'.
    apply (Hbefore i p Hlt Hp). by rewrite Hlink.
  - apply lookup_replicate_2. by eapply lookup_lt_Some.
Qed.
